(** * Print-cost estimator: page classification and tier pricing

    A shallow embedding of [main.py]: the pricing-config provider
    ([fetch_pricing_config]), the tier/price resolver
    ([calculate_price_for_percentage]), the saturation classifier
    ([analyze_image_array]), the document converter ([convert_doc_to_pdf]),
    the per-file aggregator ([process_file_logic]) and the batch loop of
    [detect_colors].

    Conventions.
    - Python exceptions are values of [exn]; a computation that may raise
      has type [result A].  Every exception modelled here derives from
      Python's [Exception], so [except Exception] handles all of them.
    - Python floats holding percentages are modelled by exact rationals
      ([Q]); [round(x, 2)] is rounding to hundredths, ties to even.  The
      program rounds a binary float, so at a decimal tie it may return
      the other neighbour; the properties below do not depend on the
      direction of a tie.
    - Calls that leave the program (OpenCV, PyMuPDF, requests, the file
      system, LibreOffice, werkzeug) are the fields of a [World]. *)

From Stdlib Require Import Ascii String ZArith QArith Qabs Qround Lia Lqa.
From stdpp Require Import base option list strings gmap.

Local Open Scope string_scope.
Local Open Scope list_scope.
Local Open Scope nat_scope.
Local Open Scope stdpp_scope.
#[local] Set Warnings "-register-all".

(** ** Python exceptions and the error monad *)

Inductive exn : Type :=
| IndexError
| KeyError
| TypeError
| AttributeError
| ValueError (msg : string)
| EnvironmentError (msg : string)
| FileNotFoundError (msg : string)
| RuntimeError (msg : string)
| CalledProcessError (stderr : option string) (* the bytes of the error output *)
| OSError
| JSONDecodeError
| RequestException
| cv2_error
| FileDataError
| UnicodeDecodeError.

Inductive result (A : Type) : Type :=
| Ok (a : A)
| Raise (e : exn).
Arguments Ok {A} a.
Arguments Raise {A} e.

#[global] Instance result_ret : MRet result := fun A a => Ok a.
#[global] Instance result_bind : MBind result := fun A B f m =>
  match m with
  | Ok a => f a
  | Raise e => Raise e
  end.
#[global] Instance result_fmap : FMap result := fun A B f m =>
  match m with
  | Ok a => Ok (f a)
  | Raise e => Raise e
  end.

(** [try: body except Exception as e: handler e]. *)
Definition try_except {A} (body : result A) (handler : exn → result A) : result A :=
  match body with
  | Ok a => Ok a
  | Raise e => handler e
  end.

Definition raises {A} (r : result A) : Prop := ∃ e, r = Raise e.
Definition returns {A} (r : result A) (a : A) : Prop := r = Ok a.

(** ** Strings *)

(** [s.lower()] on the ASCII letters.  The extension sets below hold only
    lower-case ASCII words without [k] or [i], the two ASCII letters that
    Unicode lower-casing can also produce from a non-ASCII character, so
    membership of [s.lower()] in them is decided by the ASCII letters. *)
Definition lower_ascii (c : ascii) : ascii :=
  let n := nat_of_ascii c in
  if (65 <=? n)%nat && (n <=? 90)%nat then ascii_of_nat (n + 32) else c.

Fixpoint lower (s : string) : string :=
  match s with
  | EmptyString => EmptyString
  | String c rest => String (lower_ascii c) (lower rest)
  end.

(** ['.' in s]. *)
Fixpoint has_dot (s : string) : bool :=
  match s with
  | EmptyString => false
  | String c rest => if Ascii.eqb c "." then true else has_dot rest
  end.

(** [s.rsplit('.', 1)]: [Some (head, tail)] splits at the last dot, [None]
    stands for the one-element list returned when [s] has no dot. *)
Fixpoint rsplit_dot (s : string) : option (string * string) :=
  match s with
  | EmptyString => None
  | String c rest =>
      match rsplit_dot rest with
      | Some (h, t) => Some (String c h, t)
      | None => if Ascii.eqb c "." then Some (EmptyString, rest) else None
      end
  end.

(** [s.rsplit('.', 1)[1]]: index 1 of a one-element list raises. *)
Definition rsplit_dot_1 (s : string) : result string :=
  match rsplit_dot s with
  | Some (_, t) => Ok t
  | None => Raise IndexError
  end.

(** [needle in hay] for two strings. *)
Fixpoint str_contains (needle hay : string) : bool :=
  if String.prefix needle hay then true
  else match hay with
       | EmptyString => false
       | String _ rest => str_contains needle rest
       end.

(** ** Configuration *)

Definition ALLOWED_EXTENSIONS_DOC : gset string := {[ "pdf"; "docx"; "doc" ]}.
Definition ALLOWED_EXTENSIONS_IMG : gset string := {[ "jpg"; "jpeg"; "png" ]}.
Definition PRICING_API_URL : string := "http://localhost:8000/api/config/pricing".
Definition SATURATION_THRESHOLD : Z := 20.

Definition allowed_file (filename : string) : bool :=
  has_dot filename &&
  match rsplit_dot filename with
  | Some (_, ext) =>
      bool_decide (lower ext ∈ ALLOWED_EXTENSIONS_DOC)
      || bool_decide (lower ext ∈ ALLOWED_EXTENSIONS_IMG)
  | None => false
  end.

Definition get_file_type (filename : string) : result string :=
  ext ← lower <$> rsplit_dot_1 filename;
  if bool_decide (ext ∈ ALLOWED_EXTENSIONS_IMG) then Ok "image" else Ok "document".

(** ** Price table

    The dictionary built by [fetch_pricing_config] always has exactly the
    keys ["bnw"], ["color"] and ["full_color"]; it is a record, generic in
    the type of the stored values. *)
Record PriceTable (P : Type) : Type := mkPrices {
  bnw : P;
  color : P;
  full_color : P
}.
Arguments mkPrices {P} _ _ _.
Arguments bnw {P} _.
Arguments color {P} _.
Arguments full_color {P} _.

Definition calculate_price_for_percentage {P} (percentage : Q)
    (price_config : PriceTable P) : string * P :=
  if Qle_bool percentage 0 then ("black_and_white", bnw price_config)
  else if Qle_bool percentage 50 then ("color", color price_config)
  else ("full_color", full_color price_config).

(** ** A computation on a mutable object

    [Exec S A] runs on an object of type [S] that it may update in place
    and either returns an [A] or raises; the updates made before an
    exception was raised stay, as they do on a Python dictionary. *)
Definition Exec (S A : Type) : Type := S → S * result A.

Definition exec_ret {S A} (a : A) : Exec S A := fun s => (s, Ok a).
Definition exec_bind {S A B} (m : Exec S A) (k : A → Exec S B) : Exec S B :=
  fun s => match m s with
           | (s', Ok a) => k a s'
           | (s', Raise e) => (s', Raise e)
           end.
Definition lift {S A} (r : result A) : Exec S A := fun s => (s, r).
Definition modify {S} (f : S → S) : Exec S unit := fun s => (f s, Ok tt).
Definition read {S A} (f : S → A) : Exec S A := fun s => (s, Ok (f s)).
Definition try_exec {S A} (body : Exec S A) (handler : exn → Exec S A) : Exec S A :=
  fun s => match body s with
           | (s', Ok a) => (s', Ok a)
           | (s', Raise e) => handler e s'
           end.

Notation "'do' x <- m ; k" := (exec_bind m (fun x => k))
  (at level 10, x name, m at level 100, k at level 200,
   format "'[v' 'do'  x  <-  m ; '/' k ']'").
Notation "m ;; k" := (exec_bind m (fun _ => k))
  (at level 100, k at level 200, right associativity).

(** ** JSON values as [response.json()] builds them *)

Inductive json : Type :=
| JNull
| JBool (b : bool)
| JInt (n : Z)
| JFloat (q : Q)
| JStr (s : string)
| JArr (l : list json)
| JObj (m : gmap string json).

(** Python truth value. *)
Definition truthy (v : json) : bool :=
  match v with
  | JNull => false
  | JBool b => b
  | JInt n => negb (n =? 0)%Z
  | JFloat q => negb (Qeq_bool q 0)
  | JStr s => negb (String.eqb s "")
  | JArr l => match l with [] => false | _ => true end
  | JObj m => negb (bool_decide (m = ∅))
  end.

(** [v.get(key, dflt)]: only a dictionary has the method. *)
Definition py_get (v : json) (key : string) (dflt : json) : result json :=
  match v with
  | JObj m => Ok (default dflt (m !! key))
  | _ => Raise AttributeError
  end.

Definition is_str (key : string) (v : json) : bool :=
  match v with
  | JStr s => String.eqb s key
  | _ => false
  end.

(** [key in v]: key membership for a dictionary, element membership for a
    list, substring test for a string, [TypeError] otherwise. *)
Definition py_in (key : string) (v : json) : result bool :=
  match v with
  | JObj m => Ok (bool_decide (is_Some (m !! key)))
  | JArr l => Ok (existsb (is_str key) l)
  | JStr s => Ok (str_contains key s)
  | _ => Raise TypeError
  end.

(** [v[key]] for a string key. *)
Definition py_getitem (v : json) (key : string) : result json :=
  match v with
  | JObj m => match m !! key with
              | Some x => Ok x
              | None => Raise KeyError
              end
  | _ => Raise TypeError
  end.

(** [a and b], the second operand evaluated only when the first holds. *)
Definition py_and (a : result bool) (b : result bool) : result bool :=
  a ≫= λ x : bool, if x then b else Ok false.

Record Response : Type := mkResponse {
  status_code : Z;
  response_json : result json
}.

(** ** Images *)

(** A [uint8] array of shape [(rows, cols, chans)] over a flat row-major
    buffer, as [np.frombuffer(...).reshape(h, w, n)] lays it out. *)
Record ndarray : Type := mkArray {
  rows : nat;
  cols : nat;
  chans : nat;
  buf : list Z
}.

Definition wf_array (a : ndarray) : Prop :=
  length (buf a) = (rows a * cols a * chans a)%nat.

Record Pixmap : Type := mkPixmap {
  pix_n : nat;
  pix_h : nat;
  pix_w : nat;
  pix_samples : list Z
}.

(** A page of an opened document is what loading and rendering it gives,
    as a function of the two scale factors of the matrix. *)
Record Page : Type := mkPage {
  get_pixmap : Q → Q → result Pixmap
}.

(** An opened document.  [doc.page_count] and the iteration over the
    document are separate calls of the library: the iteration yields
    [doc_pages] and ends normally when [Document.__getitem__] raises
    [IndexError], which it does at the latest at index [page_count], so
    the pages yielded are never more than [page_count];
    [doc_unreached] counts the pages of [page_count] it does not yield. *)
Record Document : Type := mkDocument {
  doc_pages : list Page;
  doc_unreached : nat
}.

Definition page_count (doc : Document) : nat :=
  length (doc_pages doc) + doc_unreached doc.

Inductive ColorConversionCode : Type :=
| COLOR_BGR2HSV
| COLOR_GRAY2BGR
| COLOR_RGB2BGR.

(** ** The world outside the program *)

Record World : Type := mkWorld {
  (* requests *)
  requests_get : string → Z → result Response;
  (* cv2 *)
  cvtColor : ndarray → ColorConversionCode → result ndarray;
  imread : string → option ndarray;
  (* fitz *)
  fitz_open : string → result Document;
  (* shutil, platform, os, subprocess *)
  which : string → bool;
  is_windows : bool;
  os_sep : ascii;
  path_join : string → string → string;
  path_dirname : string → string;
  path_basename : string → string;
  path_splitext : string → string * string;
  makedirs : string → result unit;
  subprocess_run : list string → result unit;
  path_exists : string → bool;
  (* werkzeug *)
  secure_filename : string → string;
  file_save : string → result unit
}.

(** ** Pricing config provider *)

Definition default_prices : PriceTable json :=
  mkPrices (JInt 500) (JInt 1000) (JInt 1500).

Definition set_bnw {P} (v : P) (t : PriceTable P) : PriceTable P :=
  mkPrices v (color t) (full_color t).
Definition set_color {P} (v : P) (t : PriceTable P) : PriceTable P :=
  mkPrices (bnw t) v (full_color t).

(** The body of the [try] block, running on the dictionary [prices]. *)
Definition fetch_pricing_body (W : World) : Exec (PriceTable json) unit :=
  do response <- lift (requests_get W PRICING_API_URL 5);
  if (status_code response =? 200)%Z then
    do data <- lift (response_json response);
    do cond <- lift (py_and (truthy <$> py_get data "success" JNull)
                    (py_and (py_in "data" data)
                            (d ← py_getitem data "data"; py_in "prices" d)));
    if cond : bool then
      do api_prices <- lift (d ← py_getitem data "data"; py_getitem d "prices");
      do old_bnw <- read bnw;
      do new_bnw <- lift (py_get api_prices "bnw" old_bnw);
      modify (set_bnw new_bnw);;
      do old_color <- read color;
      do new_color <- lift (py_get api_prices "color" old_color);
      modify (set_color new_color)
    else exec_ret tt
  else exec_ret tt.

Definition fetch_pricing_config (W : World) : result (PriceTable json) :=
  let '(prices, r) :=
    try_exec (fetch_pricing_body W) (fun _ => exec_ret tt) default_prices in
  _ ← r; Ok prices.

(** ** Color classifier *)

(** [round(q, ndigits)]: the nearest multiple of [10^-ndigits], a tie going
    to the even neighbour. *)
Definition round_half_even (q : Q) : Z :=
  let f := Qfloor q in
  match (q - inject_Z f ?= 1 # 2)%Q with
  | Lt => f
  | Gt => (f + 1)%Z
  | Eq => if Z.even f then f else (f + 1)%Z
  end.

Definition py_round (q : Q) (ndigits : nat) : Q :=
  let scale := (10 ^ Pos.of_nat ndigits)%positive in
  Qmake (round_half_even (q * inject_Z (Zpos scale))) scale.

(** [a[:, :, k]], flattened in row-major order. *)
Definition channel_slice (a : ndarray) (k : nat) : result (list Z) :=
  if (k <? chans a)%nat
  then Ok (map (λ i, nth (i * chans a + k) (buf a) 0%Z) (seq 0 (rows a * cols a)))
  else Raise IndexError.

Fixpoint count_nonzero (mask : list bool) : nat :=
  match mask with
  | [] => 0
  | true :: rest => S (count_nonzero rest)
  | false :: rest => count_nonzero rest
  end.

(** The body of the [try] block. *)
Definition analyze_image_body (W : World) (img_array : ndarray) : result Q :=
  hsv_img ← cvtColor W img_array COLOR_BGR2HSV;
  saturation_channel ← channel_slice hsv_img 1;
  let colored_pixels :=
    count_nonzero (map (λ s, (SATURATION_THRESHOLD <? s)%Z) saturation_channel) in
  let total_pixels := (rows img_array * cols img_array)%nat in
  if (total_pixels =? 0)%nat then Ok 0%Q
  else
    let percentage :=
      (inject_Z (Z.of_nat colored_pixels) / inject_Z (Z.of_nat total_pixels) * 100)%Q in
    Ok (py_round percentage 2).

Definition analyze_image_array (W : World) (img_array : ndarray) : result Q :=
  try_except (analyze_image_body W img_array) (λ e, Ok 0%Q).

(** ** Document conversion *)

Fixpoint replace_char (old new : ascii) (s : string) : string :=
  match s with
  | EmptyString => EmptyString
  | String c rest =>
      String (if Ascii.eqb c old then new else c) (replace_char old new rest)
  end.

(** [bytes.decode()].  A byte string and its text are held as the same
    bytes; decoding returns them when they are well-formed UTF-8 and
    raises [UnicodeDecodeError] otherwise. *)
Definition is_continuation (b : nat) : bool := (128 <=? b) && (b <=? 191).

Definition second_of_three (b0 b1 : nat) : bool :=
  if b0 =? 224 then (160 <=? b1) && (b1 <=? 191)
  else if b0 =? 237 then (128 <=? b1) && (b1 <=? 159)
  else is_continuation b1.

Definition second_of_four (b0 b1 : nat) : bool :=
  if b0 =? 240 then (144 <=? b1) && (b1 <=? 191)
  else if b0 =? 244 then (128 <=? b1) && (b1 <=? 143)
  else is_continuation b1.

Fixpoint utf8_valid (bytes : list nat) : bool :=
  match bytes with
  | [] => true
  | b0 :: rest =>
      if b0 <? 128 then utf8_valid rest
      else if (194 <=? b0) && (b0 <=? 223) then
        match rest with
        | b1 :: rest => is_continuation b1 && utf8_valid rest
        | _ => false
        end
      else if (224 <=? b0) && (b0 <=? 239) then
        match rest with
        | b1 :: b2 :: rest =>
            second_of_three b0 b1 && is_continuation b2 && utf8_valid rest
        | _ => false
        end
      else if (240 <=? b0) && (b0 <=? 244) then
        match rest with
        | b1 :: b2 :: b3 :: rest =>
            second_of_four b0 b1 && is_continuation b2 && is_continuation b3
            && utf8_valid rest
        | _ => false
        end
      else false
  end.

Definition decode (bytes : string) : result string :=
  if utf8_valid (map nat_of_ascii (list_ascii_of_string bytes)) then Ok bytes
  else Raise UnicodeDecodeError.

(** The commands tried, in this order. *)
Definition possible_cmds (W : World) : list string :=
  ["soffice"; "lowriter"; "libreoffice"]
  ++ (if is_windows W
      then ["C:\Program Files\LibreOffice\program\soffice.exe"] else []).

Definition convert_doc_to_pdf (W : World) (input_path output_dir : string)
    : result string :=
  match List.find (which W) (possible_cmds W) with
  | None => Raise (EnvironmentError "LibreOffice not found in PATH.")
  | Some libreoffice_cmd =>
      let lo_profile_dir := path_join W output_dir "lo_profile" in
      _ ← makedirs W lo_profile_dir;
      let user_install_arg :=
        "-env:UserInstallation=file:///" +:+ replace_char (os_sep W) "/" lo_profile_dir in
      let cmd :=
        [libreoffice_cmd; user_install_arg; "--headless"; "--convert-to"; "pdf";
         "--outdir"; output_dir; input_path] in
      (* the [finally] clause removes the profile directory with errors
         ignored and leaves the outcome as it is *)
      match subprocess_run W cmd with
      | Ok _ =>
          let base_name := fst (path_splitext W (path_basename W input_path)) in
          let pdf_path := path_join W output_dir (base_name +:+ ".pdf") in
          if path_exists W pdf_path then Ok pdf_path
          else Raise (FileNotFoundError ("PDF output not found at " +:+ pdf_path))
      | Raise (CalledProcessError stderr) =>
          error_msg ←
            match stderr with
            | Some bytes =>
                if String.eqb bytes "" then Ok "Unknown Error" else decode bytes
            | None => Ok "Unknown Error"
            end;
          Raise (RuntimeError ("LibreOffice conversion failed: " +:+ error_msg))
      | Raise e => Raise e
      end
  end.

(** ** Per-file results *)

Module PageEntry.
Record t : Type := mk {
  page : nat;
  color : string;
  price : Z;
  price_bnw : Z;
  percentage : Q
}.
End PageEntry.

Module Entry.
Record t : Type := mk {
  filename : string;
  type : string;
  total_pages : nat;
  total_price : Z;
  total_price_bnw : Z;
  colors : list PageEntry.t
}.

Definition set_total_pages (n : nat) (r : t) : t :=
  mk (filename r) (type r) n (total_price r) (total_price_bnw r) (colors r).
Definition set_total_price (v : Z) (r : t) : t :=
  mk (filename r) (type r) (total_pages r) v (total_price_bnw r) (colors r).
Definition set_total_price_bnw (v : Z) (r : t) : t :=
  mk (filename r) (type r) (total_pages r) (total_price r) v (colors r).
Definition append_color (c : PageEntry.t) (r : t) : t :=
  mk (filename r) (type r) (total_pages r) (total_price r) (total_price_bnw r)
     (colors r ++ [c])%list.

(** The entry as [process_file_logic] initialises it. *)
Definition init (filename file_type : string) : t :=
  mk filename file_type 0 0 0 [].
End Entry.

(** [np.frombuffer(samples, dtype=np.uint8).reshape(h, w, n)]. *)
Definition reshape (samples : list Z) (h w n : nat) : result ndarray :=
  if (length samples =? h * w * n)%nat then Ok (mkArray h w n samples)
  else Raise (ValueError "cannot reshape array").

(** Lines 219-224: the buffer of a rendered page as handed to the classifier. *)
Definition pixmap_to_bgr (W : World) (pix : Pixmap) : result ndarray :=
  if (pix_n pix <? 3)%nat then
    img_array ← reshape (pix_samples pix) (pix_h pix) (pix_w pix) (pix_n pix);
    cvtColor W img_array COLOR_GRAY2BGR
  else
    img_array ← reshape (pix_samples pix) (pix_h pix) (pix_w pix) (pix_n pix);
    cvtColor W img_array COLOR_RGB2BGR.

Definition process_image (W : World) (filepath : string) (price_config : PriceTable Z)
    : Exec Entry.t unit :=
  do img <- lift (match imread W filepath with
                  | Some img => Ok img
                  | None => Raise (ValueError "Could not read image file.")
                  end);
  modify (Entry.set_total_pages 1);;
  do percentage <- lift (analyze_image_array W img);
  let '(category, price) := calculate_price_for_percentage percentage price_config in
  modify (Entry.set_total_price price);;
  modify (Entry.set_total_price_bnw (bnw price_config));;
  modify (Entry.append_color
            (PageEntry.mk 1 category price (bnw price_config) percentage)).

(** The [for page_num, page in enumerate(doc)] loop; the two running totals
    are local variables, the entries are appended to the shared entry. *)
Fixpoint pdf_pages_loop (W : World) (price_config : PriceTable Z) (pages : list Page)
    (page_num : nat) (total_doc_price total_doc_price_bnw : Z)
    : Exec Entry.t (Z * Z) :=
  match pages with
  | [] => exec_ret (total_doc_price, total_doc_price_bnw)
  | page :: rest =>
      do pix <- lift (get_pixmap page (3 # 2) (3 # 2));
      do img_array <- lift (pixmap_to_bgr W pix);
      do percentage <- lift (analyze_image_array W img_array);
      let '(category, price) := calculate_price_for_percentage percentage price_config in
      let total_doc_price := (total_doc_price + price)%Z in
      let total_doc_price_bnw := (total_doc_price_bnw + bnw price_config)%Z in
      modify (Entry.append_color
                (PageEntry.mk (page_num + 1) category price (bnw price_config) percentage));;
      pdf_pages_loop W price_config rest (S page_num) total_doc_price total_doc_price_bnw
  end.

Definition process_pdf (W : World) (processing_path : string)
    (price_config : PriceTable Z) : Exec Entry.t unit :=
  do doc <- lift (fitz_open W processing_path);
  modify (Entry.set_total_pages (page_count doc));;
  do totals <- pdf_pages_loop W price_config (doc_pages doc) 0 0 0;
  modify (Entry.set_total_price (fst totals));;
  modify (Entry.set_total_price_bnw (snd totals)).

(** How the processing of one file ended: which of the two messages of
    [process_file_logic] was printed, if any. *)
Inductive outcome : Type :=
| Processed
| ConversionFailed (e : exn)
| ProcessingFailed (e : exn).

(** [process_file_logic] together with its log.  The two lines before the
    [try] can raise [IndexError]; the [finally] clause only removes the
    converted file and leaves the entry as it is. *)
Definition process_file_run (W : World) (filepath filename : string)
    (price_config : PriceTable Z) : result (Entry.t * outcome) :=
  file_type ← get_file_type filename;
  let result_entry := Entry.init filename file_type in
  ext ← lower <$> rsplit_dot_1 filename;
  let converted :=
    if bool_decide (ext ∈ ["doc"; "docx"])
    then convert_doc_to_pdf W filepath (path_dirname W filepath)
    else Ok filepath in
  match converted with
  | Raise e => Ok (result_entry, ConversionFailed e)
  | Ok processing_path =>
      let body :=
        if String.eqb file_type "image" then process_image W filepath price_config
        else process_pdf W processing_path price_config in
      match body result_entry with
      | (entry, Ok _) => Ok (entry, Processed)
      | (entry, Raise e) => Ok (entry, ProcessingFailed e)
      end
  end.

Definition process_file_logic (W : World) (filepath filename : string)
    (price_config : PriceTable Z) : result Entry.t :=
  fst <$> process_file_run W filepath filename price_config.

(** ** The batch loop of [detect_colors]

    [uploaded_files] are the names of the uploaded files; [response_data]
    is the list built so far.  An exception leaves the loop. *)
Fixpoint detect_colors_loop (W : World) (current_prices : PriceTable Z)
    (request_temp_dir : string) (uploaded_files : list string)
    (response_data : list Entry.t) : result (list Entry.t) :=
  match uploaded_files with
  | [] => Ok response_data
  | file :: rest =>
      if negb (String.eqb file "") && allowed_file file then
        let filename := secure_filename W file in
        let save_path := path_join W request_temp_dir filename in
        _ ← file_save W save_path;
        file_result ← process_file_logic W save_path filename current_prices;
        detect_colors_loop W current_prices request_temp_dir rest
          (response_data ++ [file_result])%list
      else
        detect_colors_loop W current_prices request_temp_dir rest response_data
  end.

(** ** A reference world

    An executable instance of [World], used to run the program on
    concrete inputs.  Its [cvtColor] follows OpenCV's 8-bit conversions:
    an empty source and a source with a channel count the conversion does
    not accept are rejected with [cv2.error]; [COLOR_GRAY2BGR] takes one
    channel, [COLOR_RGB2BGR] and [COLOR_BGR2HSV] take three or four and
    give three.  Paths follow [posixpath]. *)
Module Reference.

Definition pixel_at (a : ndarray) (i : nat) : list Z :=
  take (chans a) (drop (i * chans a) (buf a)).

Definition map_pixels (f : list Z → list Z) (dcn : nat) (a : ndarray) : ndarray :=
  mkArray (rows a) (cols a) dcn
    (flat_map (λ i, f (pixel_at a i)) (seq 0 (rows a * cols a))).

Definition gray2bgr (px : list Z) : list Z :=
  match px with
  | y :: _ => [y; y; y]
  | [] => [0; 0; 0]%Z
  end.

Definition rgb2bgr (px : list Z) : list Z :=
  match px with
  | r :: g :: b :: _ => [b; g; r]
  | _ => [0; 0; 0]%Z
  end.

Definition hsv_shift : Z := 12.
Definition sdiv_table (v : Z) : Z :=
  round_half_even (inject_Z (Z.shiftl 255 hsv_shift) / inject_Z v).
Definition hdiv_table180 (d : Z) : Z :=
  round_half_even (inject_Z (Z.shiftl 180 hsv_shift) / inject_Z (6 * d)).

Definition bgr2hsv (px : list Z) : list Z :=
  match px with
  | b :: g :: r :: _ =>
      let v := Z.max b (Z.max g r) in
      let vmin := Z.min b (Z.min g r) in
      let diff := (v - vmin)%Z in
      let sat :=
        if (v =? 0)%Z then 0%Z
        else Z.shiftr (diff * sdiv_table v + Z.shiftl 1 (hsv_shift - 1)) hsv_shift in
      let h0 :=
        if (v =? r)%Z then (g - b)%Z
        else if (v =? g)%Z then (b - r + 2 * diff)%Z
        else (r - g + 4 * diff)%Z in
      let h1 :=
        if (diff =? 0)%Z then 0%Z
        else Z.shiftr (h0 * hdiv_table180 diff + Z.shiftl 1 (hsv_shift - 1)) hsv_shift in
      let hue := if (h1 <? 0)%Z then (h1 + 180)%Z else h1 in
      [hue; sat; v]
  | _ => [0; 0; 0]%Z
  end.

Definition cvtColor8u (src : ndarray) (code : ColorConversionCode) : result ndarray :=
  if (rows src * cols src =? 0)%nat then Raise cv2_error
  else
    match code with
    | COLOR_GRAY2BGR =>
        if (chans src =? 1)%nat then Ok (map_pixels gray2bgr 3 src)
        else Raise cv2_error
    | COLOR_RGB2BGR =>
        if (chans src =? 3)%nat || (chans src =? 4)%nat
        then Ok (map_pixels rgb2bgr 3 src) else Raise cv2_error
    | COLOR_BGR2HSV =>
        if (chans src =? 3)%nat || (chans src =? 4)%nat
        then Ok (map_pixels bgr2hsv 3 src) else Raise cv2_error
    end.

Fixpoint rsplit_char (c : ascii) (s : string) : option (string * string) :=
  match s with
  | EmptyString => None
  | String x rest =>
      match rsplit_char c rest with
      | Some (h, t) => Some (String x h, t)
      | None => if Ascii.eqb x c then Some (EmptyString, rest) else None
      end
  end.

Fixpoint all_char (c : ascii) (s : string) : bool :=
  match s with
  | EmptyString => true
  | String x rest => Ascii.eqb x c && all_char c rest
  end.

Fixpoint rstrip_char (c : ascii) (s : string) : string :=
  match s with
  | EmptyString => EmptyString
  | String x rest =>
      if all_char c s then EmptyString else String x (rstrip_char c rest)
  end.

Definition posix_join (a b : string) : string :=
  match b with
  | String "/" _ => b
  | _ => if String.eqb a "" || String.eqb (String.substring (String.length a - 1) 1 a) "/"
         then a +:+ b else a +:+ "/" +:+ b
  end.

Definition posix_basename (p : string) : string :=
  match rsplit_char "/" p with
  | Some (_, t) => t
  | None => p
  end.

Definition posix_dirname (p : string) : string :=
  match rsplit_char "/" p with
  | Some (h, _) => if all_char "/" h then h +:+ "/" else rstrip_char "/" h
  | None => ""
  end.

Definition posix_splitext (p : string) : string * string :=
  let '(dir, base) :=
    match rsplit_char "/" p with
    | Some (h, t) => (h +:+ "/", t)
    | None => ("", p)
    end in
  match rsplit_char "." base with
  | Some (stem, ext) =>
      if all_char "." stem then (p, "") else (dir +:+ stem, "." +:+ ext)
  | None => (p, "")
  end.

(** A world given by what the outside answers: the pricing response,
    the decoded image and the pages of the opened document, all of them
    reached by the iteration (the same for every path),
    whether LibreOffice is installed, how running it ends and whether
    its output file exists afterwards. *)
Definition world (pricing : result Response) (image : option ndarray)
    (document : result (list Page)) (installed : bool)
    (conversion : result unit) (output_exists : bool) : World :=
  {| requests_get := λ _ _, pricing;
     cvtColor := cvtColor8u;
     imread := λ _, image;
     fitz_open := λ _, (λ pages, mkDocument pages 0) <$> document;
     which := λ cmd, installed && String.eqb cmd "soffice";
     is_windows := false;
     os_sep := "/";
     path_join := posix_join;
     path_dirname := posix_dirname;
     path_basename := posix_basename;
     path_splitext := posix_splitext;
     makedirs := λ _, Ok tt;
     subprocess_run := λ _, conversion;
     path_exists := λ _, output_exists;
     secure_filename := λ name, name;
     file_save := λ _, Ok tt |}.

Definition unreachable : result Response := Raise RequestException.
Definition no_document : result (list Page) := Raise FileDataError.

(** A world where only the image decoder answers. *)
Definition image_world (image : option ndarray) : World :=
  world unreachable image no_document false (Ok tt) false.

(** A world where only the PDF reader answers. *)
Definition pdf_world (pages : list Page) : World :=
  world unreachable None (Ok pages) false (Ok tt) false.

(** A world where only the pricing source answers. *)
Definition pricing_world (pricing : result Response) : World :=
  world pricing None no_document false (Ok tt) false.

Definition rendered (pix : Pixmap) : Page := mkPage (λ _ _, Ok pix).
Definition unrenderable : Page := mkPage (λ _ _, Raise (RuntimeError "cannot render page")).

Definition default_price_table : PriceTable Z := mkPrices 500%Z 1000%Z 1500%Z.

End Reference.

(** ** Vocabulary of the properties *)

(** The ways the pricing fetch can fail. *)
Inductive fetch_failure (W : World) : Prop :=
| request_raised e :
    (* timeout, unreachable host *)
    requests_get W PRICING_API_URL 5 = Raise e → fetch_failure W
| status_not_200 r :
    requests_get W PRICING_API_URL 5 = Ok r →
    status_code r ≠ 200%Z → fetch_failure W
| body_not_json r e :
    requests_get W PRICING_API_URL 5 = Ok r →
    response_json r = Raise e → fetch_failure W
| success_falsy r m :
    requests_get W PRICING_API_URL 5 = Ok r →
    response_json r = Ok (JObj m) →
    truthy (default JNull (m !! "success")) = false → fetch_failure W
| data_missing r m :
    requests_get W PRICING_API_URL 5 = Ok r →
    response_json r = Ok (JObj m) →
    m !! "data" = None → fetch_failure W
| prices_missing r m v :
    (* data is an object without the key, a list without the string, or
       a string that does not contain it *)
    requests_get W PRICING_API_URL 5 = Ok r →
    response_json r = Ok (JObj m) →
    m !! "data" = Some v → py_in "prices" v = Ok false → fetch_failure W
| body_raised e :
    (* any exception raised inside the [try] block *)
    snd (fetch_pricing_body W default_prices) = Raise e → fetch_failure W.

(** The response the pricing source is expected to give: status 200, a
    truthy success flag and an object under data.prices. *)
Definition well_formed_pricing (W : World) : Prop :=
  ∃ r (m d p : gmap string json),
    requests_get W PRICING_API_URL 5 = Ok r
    ∧ status_code r = 200%Z
    ∧ response_json r = Ok (JObj m)
    ∧ truthy (default JNull (m !! "success")) = true
    ∧ m !! "data" = Some (JObj d)
    ∧ d !! "prices" = Some (JObj p).

(** The saturation of pixel [i] of an HSV array, and the pixels that
    count as colored. *)
Definition saturation_at (hsv : ndarray) (i : nat) : Z :=
  nth (i * chans hsv + 1) (buf hsv) 0%Z.

Definition colored (hsv : ndarray) (i : nat) : Prop :=
  (20 < saturation_at hsv i)%Z.

#[global] Instance colored_dec hsv i : Decision (colored hsv i) :=
  decide (20 < saturation_at hsv i)%Z.

Definition colored_count (hsv : ndarray) : nat :=
  length (filter (colored hsv) (seq 0 (rows hsv * cols hsv))).

(** [r] is [x] rounded to two decimal places: a whole number of
    hundredths at most half a hundredth away from [x]. *)
Definition rounded_to_hundredths (x r : Q) : Prop :=
  (∃ k : Z, r = k # 100) ∧ (Qabs (r - x) <= 1 # 200)%Q.

(** [dst] has the height and width of [src] and three channels. *)
Definition same_shape_3 (src dst : ndarray) : Prop :=
  rows dst = rows src ∧ cols dst = cols src ∧ chans dst = 3.

(** The ways the conversion of a document can fail: no LibreOffice
    command is found, LibreOffice exits with a non-zero status, the PDF it
    should have written is not there, or any other exception. *)
Inductive conversion_failure (W : World) (input_path output_dir : string) : Prop :=
| converter_unavailable :
    List.find (which W) (possible_cmds W) = None →
    conversion_failure W input_path output_dir
| nonzero_exit cmd stderr :
    List.find (which W) (possible_cmds W) = Some cmd →
    makedirs W (path_join W output_dir "lo_profile") = Ok tt →
    (∀ args, subprocess_run W (cmd :: args) = Raise (CalledProcessError stderr)) →
    conversion_failure W input_path output_dir
| output_missing cmd :
    List.find (which W) (possible_cmds W) = Some cmd →
    makedirs W (path_join W output_dir "lo_profile") = Ok tt →
    (∀ args, subprocess_run W (cmd :: args) = Ok tt) →
    path_exists W
      (path_join W output_dir
         (fst (path_splitext W (path_basename W input_path)) +:+ ".pdf")) = false →
    conversion_failure W input_path output_dir
| conversion_raised e :
    convert_doc_to_pdf W input_path output_dir = Raise e →
    conversion_failure W input_path output_dir.

(** The sum of a list of prices. *)
Definition Zsum (l : list Z) : Z := foldr Z.add 0%Z l.

(** The invariant of a per-file result: the totals are the sums over the
    per-page entries and [total_pages] is their number. *)
Definition totals_consistent (e : Entry.t) : Prop :=
  Entry.total_price e = Zsum (map PageEntry.price (Entry.colors e))
  ∧ Entry.total_price_bnw e = Zsum (map PageEntry.price_bnw (Entry.colors e))
  ∧ Entry.total_pages e = length (Entry.colors e).

(** The totals of a result are the sums over its per-page entries, and
    it holds no more entries than [total_pages]. *)
Definition totals_are_sums (e : Entry.t) : Prop :=
  Entry.total_price e = Zsum (map PageEntry.price (Entry.colors e))
  ∧ Entry.total_price_bnw e = Zsum (map PageEntry.price_bnw (Entry.colors e))
  ∧ length (Entry.colors e) ≤ Entry.total_pages e.

(** A degraded result: no page, no price, no entry. *)
Definition degraded (e : Entry.t) : Prop :=
  Entry.total_pages e = 0
  ∧ Entry.total_price e = 0%Z
  ∧ Entry.total_price_bnw e = 0%Z
  ∧ Entry.colors e = [].

(** The samples of an RGB buffer with the first and third sample of every
    pixel exchanged. *)
Fixpoint swap_rb (samples : list Z) : list Z :=
  match samples with
  | r :: g :: b :: rest => b :: g :: r :: swap_rb rest
  | _ => []
  end.

(** The samples of a gray buffer with every sample written three times. *)
Definition triple_gray (samples : list Z) : list Z :=
  flat_map (λ y, [y; y; y]) samples.

(** ** Sample inputs *)

(** A payload that sets bnw only, with a full_color entry the program
    must ignore. *)
Definition partial_prices : gmap string json :=
  {[ "bnw" := JInt 700; "full_color" := JInt 9 ]}.
Definition partial_data : gmap string json :=
  {[ "prices" := JObj partial_prices ]}.
Definition partial_payload : gmap string json :=
  {[ "success" := JBool true; "data" := JObj partial_data ]}.

(** A payload whose data is a list that does not hold "prices". *)
Definition list_payload : json :=
  JObj {[ "success" := JBool true; "data" := JArr [JInt 1; JInt 2] ]}.

(** Three pixels in a row, in BGR order: blue, dark gray, red. *)
Definition three_pixels : ndarray :=
  mkArray 1 3 3 [255; 0; 0;  10; 10; 10;  0; 0; 250]%Z.

(** Rendered pages, in the RGB order of the renderer: one white pixel,
    one blue pixel, a red and a green pixel. *)
Definition white_page : Pixmap := mkPixmap 3 1 1 [255; 255; 255]%Z.
Definition blue_page : Pixmap := mkPixmap 3 1 1 [0; 0; 255]%Z.
Definition saturated_page : Pixmap := mkPixmap 3 1 2 [255; 0; 0; 0; 255; 0]%Z.

(** A world in which LibreOffice is not installed; every image decodes to
    [three_pixels] and every PDF has one white page. *)
Definition no_converter_world : World :=
  Reference.world Reference.unreachable (Some three_pixels)
    (Ok [Reference.rendered white_page]) false (Ok tt) false.

(** A world that differs from [W] in [fitz_open] only. *)
Definition with_fitz_open (f : string → result Document) (W : World) : World :=
  {| requests_get := requests_get W;
     cvtColor := cvtColor W;
     imread := imread W;
     fitz_open := f;
     which := which W;
     is_windows := is_windows W;
     os_sep := os_sep W;
     path_join := path_join W;
     path_dirname := path_dirname W;
     path_basename := path_basename W;
     path_splitext := path_splitext W;
     makedirs := makedirs W;
     subprocess_run := subprocess_run W;
     path_exists := path_exists W;
     secure_filename := secure_filename W;
     file_save := file_save W |}.

(** A PDF that declares two pages and holds one: [page_count] is 2 and
    the iteration yields the one white page. *)
Definition short_document_world : World :=
  with_fitz_open (λ _, Ok (mkDocument [Reference.rendered white_page] 1))
    no_converter_world.

(** A world in which LibreOffice is installed and exits with a non-zero
    status, its error output holding a byte that is not UTF-8. *)
Definition garbled_stderr_world : World :=
  Reference.world Reference.unreachable None Reference.no_document true
    (Raise (CalledProcessError (Some (String (ascii_of_nat 255) "")))) false.

(** A world that differs from [W] in [secure_filename] only. *)
Definition with_secure_filename (f : string → string) (W : World) : World :=
  {| requests_get := requests_get W;
     cvtColor := cvtColor W;
     imread := imread W;
     fitz_open := fitz_open W;
     which := which W;
     is_windows := is_windows W;
     os_sep := os_sep W;
     path_join := path_join W;
     path_dirname := path_dirname W;
     path_basename := path_basename W;
     path_splitext := path_splitext W;
     makedirs := makedirs W;
     subprocess_run := subprocess_run W;
     path_exists := path_exists W;
     secure_filename := f;
     file_save := file_save W |}.

(** [secure_filename] drops leading dots (and every character outside
    ASCII): a name such as [".pdf"] is sanitised to ["pdf"]. *)
Definition stripping_world : World :=
  with_secure_filename (λ _, "pdf") no_converter_world.

(** ** Vocabulary of the further properties *)

(** The check of the batch loop on one upload: a non-empty name with an
    allowed extension. *)
Definition accepted (file : string) : bool :=
  negb (String.eqb file "") && allowed_file file.

(** The per-page entry the page loop builds for page [page_num] (counted
    from 0), or the exception that interrupts the loop there. *)
Definition classify_page (W : World) (price_config : PriceTable Z)
    (page_num : nat) (page : Page) : result PageEntry.t :=
  pix ← get_pixmap page (3 # 2) (3 # 2);
  img_array ← pixmap_to_bgr W pix;
  percentage ← analyze_image_array W img_array;
  Ok (PageEntry.mk (page_num + 1)
        (fst (calculate_price_for_percentage percentage price_config))
        (snd (calculate_price_for_percentage percentage price_config))
        (bnw price_config) percentage).

(** The entries of the pages before the first page that raises, and the
    exception of that page when there is one. *)
Fixpoint classify_pages (W : World) (price_config : PriceTable Z)
    (pages : list Page) (page_num : nat) : list PageEntry.t * option exn :=
  match pages with
  | [] => ([], None)
  | page :: rest =>
      match classify_page W price_config page_num page with
      | Raise e => ([], Some e)
      | Ok c =>
          let '(cs, err) := classify_pages W price_config rest (S page_num) in
          (c :: cs, err)
      end
  end.

(** The tier and the price of an entry are the resolver's answer for the
    entry's percentage, and its price_bnw is the table's bnw price. *)
Definition entry_resolved (price_config : PriceTable Z) (c : PageEntry.t) : Prop :=
  (PageEntry.color c, PageEntry.price c)
    = calculate_price_for_percentage (PageEntry.percentage c) price_config
  ∧ PageEntry.price_bnw c = bnw price_config.

(** The entry [e] under another file name. *)
Definition renamed (filename : string) (e : Entry.t) : Entry.t :=
  Entry.mk filename (Entry.type e) (Entry.total_pages e) (Entry.total_price e)
    (Entry.total_price_bnw e) (Entry.colors e).
(** A price table in which color costs at least black and white, and full
    color at least color. *)
Definition monotone_prices (t : PriceTable Z) : Prop :=
  (0 ≤ bnw t ∧ bnw t ≤ color t ∧ color t ≤ full_color t)%Z.

(** What the batch loop does for one accepted upload: save it under its
    sanitised name and process it. *)
Definition handle_upload (W : World) (current_prices : PriceTable Z)
    (request_temp_dir file : string) : result Entry.t :=
  _ ← file_save W (path_join W request_temp_dir (secure_filename W file));
  process_file_logic W (path_join W request_temp_dir (secure_filename W file))
    (secure_filename W file) current_prices.

(** A world in which LibreOffice is installed and writes its output;
    every PDF has a white page and a blue page. *)
Definition converter_world : World :=
  Reference.world Reference.unreachable None
    (Ok [Reference.rendered white_page; Reference.rendered blue_page])
    true (Ok tt) true.

(** The HSV conversion of the world keeps the height and the width of
    every image it converts and gives three channels. *)
Definition hsv_keeps_shape (W : World) : Prop :=
  ∀ src hsv, cvtColor W src COLOR_BGR2HSV = Ok hsv → same_shape_3 src hsv.

(** A percentage as the classifier returns it: between 0 and 100, a whole
    number of hundredths. *)
Definition valid_percentage (p : Q) : Prop :=
  (0 <= p <= 100)%Q ∧ ∃ k : Z, (p == k # 100)%Q.

(** * Properties *)

(** C1: the tier/price resolver is a total three-bucket step function:
    a percentage [p <= 0] gives tier black_and_white at the table's bnw
    price, [0 < p <= 50] gives color at the color price, [p > 50] gives
    full_color at the full_color price; exactly one bucket applies.  In
    particular 0 resolves to black_and_white, 50 to color, 50.01 and 100
    to full_color. *)
Theorem calculate_price_three_buckets :
  (∀ (P : Type) (p : Q) (t : PriceTable P),
      (p <= 0 ∧ calculate_price_for_percentage p t = ("black_and_white", bnw t))%Q
    ∨ (0 < p ∧ p <= 50 ∧ calculate_price_for_percentage p t = ("color", color t))%Q
    ∨ (50 < p ∧ calculate_price_for_percentage p t = ("full_color", full_color t))%Q)
  ∧ (∀ (P : Type) (t : PriceTable P),
      calculate_price_for_percentage 0 t = ("black_and_white", bnw t)
    ∧ calculate_price_for_percentage 50 t = ("color", color t)
    ∧ calculate_price_for_percentage (5001 # 100) t = ("full_color", full_color t)
    ∧ calculate_price_for_percentage 100 t = ("full_color", full_color t)).
Proof.
  split.
  - intros P p t. unfold calculate_price_for_percentage.
    destruct (Qle_bool p 0) eqn:H0.
    + left. split; [by apply Qle_bool_iff | done].
    + assert (0 < p)%Q as Hpos.
      { apply Qnot_le_lt. intros Hle. apply Qle_bool_iff in Hle. congruence. }
      destruct (Qle_bool p 50) eqn:H50.
      * right; left. repeat split; [done | by apply Qle_bool_iff].
      * right; right. split; [| done].
        apply Qnot_le_lt. intros Hle. apply Qle_bool_iff in Hle. congruence.
  - intros P t. by repeat split.
Qed.

(** ** Pricing config provider *)

Ltac exec_unfold :=
  unfold exec_bind, lift, read, modify, exec_ret, try_exec in *.

Section Fetch.
Context (W : World).

Lemma fetch_body_full_color s :
  full_color (fst (fetch_pricing_body W s)) = full_color s.
Proof.
  unfold fetch_pricing_body. exec_unfold.
  repeat case_match; simplify_eq/=; done.
Qed.

(** An exception inside the block is raised before the table is touched. *)
Lemma fetch_body_raise_unchanged s s' e :
  fetch_pricing_body W s = (s', Raise e) → s' = s.
Proof.
  unfold fetch_pricing_body. exec_unfold.
  repeat case_match; simplify_eq/=; try done; intros [= <- _]; try done.
  match goal with
  | H : py_get ?a "bnw" _ = Ok _, H' : py_get ?a "color" _ = Raise _ |- _ =>
      destruct a; discriminate
  end.
Qed.

Lemma fetch_config_of_body :
  fetch_pricing_config W = Ok (fst (fetch_pricing_body W default_prices)).
Proof.
  unfold fetch_pricing_config. exec_unfold.
  destruct (fetch_pricing_body W default_prices) as [s [[]|e]]; done.
Qed.

Lemma fetch_config_total : ∃ t, fetch_pricing_config W = Ok t.
Proof. rewrite fetch_config_of_body. eauto. Qed.
End Fetch.

(** C4: whenever the pricing fetch fails (the request raises, as on a
    timeout or an unreachable host; the status is not 200; the body is not
    JSON; the success flag is falsy; data or data.prices is missing; or
    any exception is raised inside the block), [fetch_pricing_config]
    returns, without raising, exactly the default table
    {bnw: 500, color: 1000, full_color: 1500}.  These failures leave out
    no outcome: a fetch that is none of them got the expected response,
    status 200 with a truthy success flag and an object under
    data.prices. *)
Theorem fetch_failure_gives_defaults (W : World) :
  (fetch_failure W →
     fetch_pricing_config W = Ok (mkPrices (JInt 500) (JInt 1000) (JInt 1500)))
  ∧ (fetch_failure W ∨ well_formed_pricing W).
Proof.
  split.
  - intros Hfail. rewrite fetch_config_of_body. f_equal.
    change (mkPrices (JInt 500) (JInt 1000) (JInt 1500)) with default_prices.
    destruct Hfail
      as [e H|r H Hs|r e H Hj|r m H Hj Ht|r m H Hj Hd|r m v H Hj Hd Hp|e H].
    + unfold fetch_pricing_body. exec_unfold. by rewrite H.
    + unfold fetch_pricing_body. exec_unfold. rewrite H.
      destruct (Z.eqb_spec (status_code r) 200); done.
    + unfold fetch_pricing_body. exec_unfold. rewrite H, Hj. by case_match.
    + unfold fetch_pricing_body. exec_unfold. rewrite H, Hj. simpl.
      case_match; [|done]. unfold py_and; simpl. by rewrite Ht.
    + unfold fetch_pricing_body. exec_unfold. rewrite H, Hj. simpl.
      case_match; [|done]. unfold py_and; simpl. rewrite Hd. simpl.
      by destruct (truthy _).
    + unfold fetch_pricing_body. exec_unfold. rewrite H, Hj. simpl.
      case_match; [|done]. unfold py_and; simpl. rewrite Hd. simpl. rewrite Hp.
      by destruct (truthy _).
    + destruct (fetch_pricing_body W default_prices) as [s r] eqn:Hb.
      simpl in *. subst r. by apply fetch_body_raise_unchanged in Hb.
  - destruct (fetch_pricing_body W default_prices) as [s res] eqn:Hbody.
    destruct res as [[]|e].
    2:{ left. apply (body_raised W e). by rewrite Hbody. }
    revert Hbody. unfold fetch_pricing_body. exec_unfold.
    destruct (requests_get W PRICING_API_URL 5) as [r|] eqn:Hget; [| done].
    destruct (Z.eqb_spec (status_code r) 200) as [Hs|Hs].
    2:{ intros _. left. by apply (status_not_200 W r). }
    destruct (response_json r) as [data|] eqn:Hjson; [| done].
    destruct data as [| | | | | |m]; try done. simpl.
    unfold py_and. simpl.
    destruct (truthy (default JNull (m !! "success"))) eqn:Ht; simpl.
    2:{ intros _. left. by apply (success_falsy W r m). }
    destruct (m !! "data") as [v|] eqn:Hd; simpl.
    2:{ intros _. left. by apply (data_missing W r m). }
    destruct v as [| | | | s'|l|d]; simpl; try done.
    + destruct (str_contains "prices" s') eqn:Hin; simpl; [done |].
      intros _. left. apply (prices_missing W r m (JStr s')); try done.
      simpl. by rewrite Hin.
    + destruct (existsb (is_str "prices") l) eqn:Hin; simpl; [done |].
      intros _. left. apply (prices_missing W r m (JArr l)); try done.
      simpl. by rewrite Hin.
    + destruct (d !! "prices") as [v|] eqn:Hp; simpl.
      2:{ intros _. left. apply (prices_missing W r m (JObj d)); try done.
          simpl. by rewrite Hp. }
      destruct v as [| | | | | |p]; simpl; try done.
      intros _. right. exists r, m, d, p. done.
Qed.

Lemma fetch_failure_gives_defaults_witness :
  fetch_pricing_config (Reference.pricing_world (Ok (mkResponse 200 (Ok list_payload))))
  = Ok (mkPrices (JInt 500) (JInt 1000) (JInt 1500)).
Proof.
  apply (proj1 (fetch_failure_gives_defaults
                  (Reference.pricing_world (Ok (mkResponse 200 (Ok list_payload)))))).
  apply (prices_missing _ (mkResponse 200 (Ok list_payload))
           {[ "success" := JBool true; "data" := JArr [JInt 1; JInt 2] ]}
           (JArr [JInt 1; JInt 2])); reflexivity.
Defined.

(** C7: whatever the pricing source answers, the full_color entry of the
    table returned by [fetch_pricing_config] is the fixed value 1500. *)
Theorem fetch_keeps_full_color (W : World) :
  full_color <$> fetch_pricing_config W = Ok (JInt 1500).
Proof.
  rewrite fetch_config_of_body. simpl. f_equal. apply fetch_body_full_color.
Qed.

(** C10: on a response with status 200, a truthy success flag and an
    object under data.prices, each of bnw and color is taken from
    data.prices when the key is there and keeps its default when it is
    not; full_color stays 1500. *)
Theorem fetch_overrides_per_key (W : World) r (m d p : gmap string json) :
  requests_get W PRICING_API_URL 5 = Ok r →
  status_code r = 200%Z →
  response_json r = Ok (JObj m) →
  truthy (default JNull (m !! "success")) = true →
  m !! "data" = Some (JObj d) →
  d !! "prices" = Some (JObj p) →
  fetch_pricing_config W =
    Ok (mkPrices (default (JInt 500) (p !! "bnw"))
                 (default (JInt 1000) (p !! "color"))
                 (JInt 1500)).
Proof.
  intros H Hs Hj Ht Hd Hp. rewrite fetch_config_of_body. f_equal.
  unfold fetch_pricing_body. exec_unfold. rewrite H, Hs, Hj. simpl.
  unfold py_and; simpl. rewrite Ht, Hd. simpl. rewrite Hp. simpl.
  reflexivity.
Qed.

Lemma fetch_overrides_per_key_witness :
  fetch_pricing_config
    (Reference.pricing_world (Ok (mkResponse 200 (Ok (JObj partial_payload)))))
  = Ok (mkPrices (JInt 700) (JInt 1000) (JInt 1500)).
Proof.
  etrans.
  - by apply (fetch_overrides_per_key _ (mkResponse 200 (Ok (JObj partial_payload)))
                partial_payload partial_data partial_prices).
  - reflexivity.
Defined.

(** ** Color classifier *)

Lemma round_half_even_near (q : Q) :
  (Qabs (inject_Z (round_half_even q) - q) <= 1 # 2)%Q.
Proof.
  unfold round_half_even.
  pose proof (Qfloor_le q) as Hlo. pose proof (Qlt_floor q) as Hhi.
  rewrite inject_Z_plus in Hhi. change (inject_Z 1) with 1%Q in Hhi.
  apply Qabs_Qle_condition.
  destruct (q - inject_Z (Qfloor q) ?= 1 # 2)%Q eqn:Hc.
  - apply Qeq_alt in Hc. destruct (Z.even (Qfloor q)).
    + split; lra.
    + rewrite inject_Z_plus. change (inject_Z 1) with 1%Q. split; lra.
  - apply Qlt_alt in Hc. split; lra.
  - apply Qgt_alt in Hc. rewrite inject_Z_plus. change (inject_Z 1) with 1%Q.
    split; lra.
Qed.

Lemma round_half_even_range (q : Q) (n : Z) :
  (0 <= q)%Q → (q <= inject_Z n)%Q → (0 <= round_half_even q <= n)%Z.
Proof.
  intros H0 Hn. pose proof (round_half_even_near q) as Hr.
  apply Qabs_Qle_condition in Hr. destruct Hr as [Hr1 Hr2].
  set (k := round_half_even q) in *.
  assert (inject_Z (-1) < inject_Z k)%Q as Hlo.
  { change (inject_Z (-1)) with (-1 # 1)%Q. lra. }
  assert (inject_Z k < inject_Z (n + 1))%Q as Hhi.
  { rewrite inject_Z_plus. change (inject_Z 1) with 1%Q. lra. }
  rewrite <- Zlt_Qlt in Hlo, Hhi. lia.
Qed.

Lemma py_round_2 (x : Q) :
  py_round x 2 = round_half_even (x * 100) # 100.
Proof. reflexivity. Qed.

Lemma py_round_2_rounded (x : Q) : rounded_to_hundredths x (py_round x 2).
Proof.
  split; [by eexists |]. rewrite py_round_2.
  pose proof (round_half_even_near (x * 100)) as Hr.
  apply Qabs_Qle_condition in Hr. destruct Hr as [Hr1 Hr2].
  apply Qabs_Qle_condition.
  pose proof (Qmake_Qdiv (round_half_even (x * 100)) 100) as Hk.
  change (inject_Z (Z.pos 100)) with 100%Q in Hk.
  generalize dependent (round_half_even (x * 100) # 100)%Q.
  generalize dependent (inject_Z (round_half_even (x * 100))).
  intros k Hr1 Hr2 r Hk. unfold Qdiv in Hk. change (/ 100)%Q with (1 # 100)%Q in Hk.
  split; lra.
Qed.

Lemma py_round_2_range (x : Q) :
  (0 <= x)%Q → (x <= 100)%Q → (0 <= py_round x 2 <= 100)%Q.
Proof.
  intros H0 H1. rewrite py_round_2.
  destruct (round_half_even_range (x * 100) 10000) as [Hk0 Hk1].
  - lra.
  - change (inject_Z 10000) with 10000%Q. lra.
  - unfold Qle; simpl. lia.
Qed.

(** The mask-and-count of the program counts the colored pixels. *)
Lemma count_nonzero_colored (hsv : ndarray) (l : list nat) :
  count_nonzero
    (map (λ s, (SATURATION_THRESHOLD <? s)%Z)
         (map (λ i, nth (i * chans hsv + 1) (buf hsv) 0%Z) l))
  = length (filter (colored hsv) l).
Proof.
  induction l as [|i l IH]; [done |]. simpl.
  rewrite filter_cons. unfold SATURATION_THRESHOLD in *.
  destruct (decide (colored hsv i)) as [Hc|Hc];
    unfold colored, saturation_at in Hc.
  - destruct (Z.ltb_spec 20 (nth (i * chans hsv + 1) (buf hsv) 0%Z)); [| lia].
    simpl. by rewrite IH.
  - destruct (Z.ltb_spec 20 (nth (i * chans hsv + 1) (buf hsv) 0%Z)); [lia |].
    done.
Qed.

Lemma colored_count_le (hsv : ndarray) :
  (colored_count hsv ≤ rows hsv * cols hsv)%nat.
Proof.
  unfold colored_count.
  etrans; [apply length_filter |]. by rewrite length_seq.
Qed.

Lemma ratio_range (c t : nat) :
  (c ≤ t)%nat → t ≠ 0 →
  (0 <= inject_Z (Z.of_nat c) / inject_Z (Z.of_nat t) * 100 <= 100)%Q.
Proof.
  intros Hct Ht.
  assert (0 < inject_Z (Z.of_nat t))%Q as Htpos.
  { change 0%Q with (inject_Z 0). rewrite <- Zlt_Qlt. lia. }
  assert (0 <= inject_Z (Z.of_nat c))%Q as Hc0.
  { change 0%Q with (inject_Z 0). rewrite <- Zle_Qle. lia. }
  assert (inject_Z (Z.of_nat c) <= inject_Z (Z.of_nat t))%Q as Hc1.
  { rewrite <- Zle_Qle. lia. }
  assert (0 <= inject_Z (Z.of_nat c) / inject_Z (Z.of_nat t))%Q as H0.
  { apply Qle_shift_div_l; [done |]. lra. }
  assert (inject_Z (Z.of_nat c) / inject_Z (Z.of_nat t) <= 1)%Q as H1.
  { apply Qle_shift_div_r; [done |]. lra. }
  split; lra.
Qed.

Section Classifier.
Context (W : World).

Lemma analyze_body_ok (img hsv : ndarray) :
  cvtColor W img COLOR_BGR2HSV = Ok hsv →
  same_shape_3 img hsv →
  analyze_image_body W img =
    if (rows img * cols img =? 0)%nat then Ok 0%Q
    else Ok (py_round (inject_Z (Z.of_nat (colored_count hsv))
                       / inject_Z (Z.of_nat (rows img * cols img)) * 100) 2).
Proof.
  intros Hcvt (Hr & Hc & Hn). unfold analyze_image_body.
  rewrite Hcvt. simpl. unfold channel_slice.
  destruct (Nat.ltb_spec 1 (chans hsv)); [| lia]. simpl.
  rewrite count_nonzero_colored. fold (colored_count hsv). done.
Qed.

Lemma analyze_never_raises (img : ndarray) :
  ∃ p, analyze_image_array W img = Ok p.
Proof.
  unfold analyze_image_array, try_except.
  destruct (analyze_image_body W img); eauto.
Qed.
End Classifier.

(** C2: for a page whose HSV conversion has the page's height and width
    and three channels, the classifier counts exactly the pixels whose
    saturation exceeds 20, returns (colored / total) * 100 rounded to two
    decimal places, returns 0.0 for a zero-area page, and its result lies
    in [0, 100].  (Percentages are exact rationals here; the program
    computes them in binary floating point.) *)
Theorem analyze_image_array_percentage (W : World) (img : ndarray) :
  (∀ hsv, cvtColor W img COLOR_BGR2HSV = Ok hsv → same_shape_3 img hsv) →
  ∃ p : Q,
    analyze_image_array W img = Ok p
    ∧ (0 <= p <= 100)%Q
    ∧ (rows img * cols img = 0 → p = 0%Q)
    ∧ (∀ hsv, cvtColor W img COLOR_BGR2HSV = Ok hsv →
         rows img * cols img ≠ 0 →
         rounded_to_hundredths
           (inject_Z (Z.of_nat (colored_count hsv))
            / inject_Z (Z.of_nat (rows img * cols img)) * 100) p).
Proof.
  intros Hshape. unfold analyze_image_array, try_except.
  destruct (cvtColor W img COLOR_BGR2HSV) as [hsv|e] eqn:Hcvt.
  - specialize (Hshape hsv eq_refl).
    rewrite (analyze_body_ok W img hsv Hcvt Hshape).
    destruct (Nat.eqb_spec (rows img * cols img) 0) as [Hz|Hnz].
    + exists 0%Q. repeat split; done.
    + eexists. split; [done |].
      assert (colored_count hsv ≤ rows img * cols img)%nat as Hle.
      { destruct Hshape as (Hr & Hc & _). rewrite <- Hr, <- Hc.
        apply colored_count_le. }
      split; [| split].
      * apply py_round_2_range; by apply ratio_range.
      * done.
      * intros hsv' [= <-] _. apply py_round_2_rounded.
  - unfold analyze_image_body. rewrite Hcvt. simpl.
    exists 0%Q. repeat split; try done.
Qed.

Lemma analyze_image_array_percentage_witness :
  ∃ p : Q,
    analyze_image_array (Reference.image_world None) three_pixels = Ok p
    ∧ (0 <= p <= 100)%Q
    ∧ (rows three_pixels * cols three_pixels = 0 → p = 0%Q)
    ∧ (∀ hsv, cvtColor (Reference.image_world None) three_pixels COLOR_BGR2HSV = Ok hsv →
         rows three_pixels * cols three_pixels ≠ 0 →
         rounded_to_hundredths
           (inject_Z (Z.of_nat (colored_count hsv))
            / inject_Z (Z.of_nat (rows three_pixels * cols three_pixels)) * 100) p).
Proof.
  apply (analyze_image_array_percentage (Reference.image_world None) three_pixels).
  intros hsv [= <-]. repeat split; reflexivity.
Defined.

(** C6: the classifier never raises, whatever the buffer and whatever the
    conversion does with it: it always returns a percentage, and when
    anything inside the [try] block raises that percentage is 0.0. *)
Theorem analyze_image_array_never_raises (W : World) (img : ndarray) :
  (∃ p, analyze_image_array W img = Ok p)
  ∧ (∀ e, analyze_image_body W img = Raise e → analyze_image_array W img = Ok 0%Q).
Proof.
  split; [apply analyze_never_raises |].
  intros e He. unfold analyze_image_array. by rewrite He.
Qed.

(** ** Result aggregator *)

Section Aggregator.
Context (W : World) (price_config : PriceTable Z).

(** What one run of the page loop does to the entry: it only appends to
    [colors]; every appended entry carries the bnw price; when the loop
    ends normally there is one new entry per page and the running totals
    have grown by the sums over the new entries; when a page raises,
    fewer entries than pages were appended. *)
Lemma pdf_pages_loop_spec (pages : list Page) :
  ∀ page_num tp tb entry,
  ∃ new,
    let '(entry', r) := pdf_pages_loop W price_config pages page_num tp tb entry in
    entry' = Entry.mk (Entry.filename entry) (Entry.type entry)
               (Entry.total_pages entry) (Entry.total_price entry)
               (Entry.total_price_bnw entry) (Entry.colors entry ++ new)
    ∧ Forall (λ c, PageEntry.price_bnw c = bnw price_config) new
    ∧ match r with
      | Ok (tp', tb') =>
          length new = length pages
          ∧ tp' = (tp + Zsum (map PageEntry.price new))%Z
          ∧ tb' = (tb + Zsum (map PageEntry.price_bnw new))%Z
      | Raise _ => (length new < length pages)%nat
      end.
Proof.
  induction pages as [|page rest IH]; intros page_num tp tb entry.
  - exists []. simpl. destruct entry; simpl. rewrite app_nil_r.
    repeat split; [done | lia | lia].
  - simpl. exec_unfold.
    destruct (get_pixmap page (3 # 2) (3 # 2)) as [pix|e].
    2:{ exists []. destruct entry; simpl. rewrite app_nil_r.
        repeat split; [done | lia]. }
    destruct (pixmap_to_bgr W pix) as [img|e].
    2:{ exists []. destruct entry; simpl. rewrite app_nil_r.
        repeat split; [done | lia]. }
    destruct (analyze_never_raises W img) as [p ->].
    destruct (calculate_price_for_percentage p price_config) as [category price].
    set (c := PageEntry.mk (page_num + 1) category price (bnw price_config) p).
    destruct (IH (S page_num) (tp + price)%Z (tb + bnw price_config)%Z
                (Entry.append_color c entry)) as [new Hnew].
    exists (c :: new).
    destruct (pdf_pages_loop W price_config rest (S page_num) (tp + price)
                (tb + bnw price_config) (Entry.append_color c entry))
      as [entry' r].
    destruct Hnew as (-> & Hbnw & Hr). split; [| split].
    + destruct entry; simpl. by rewrite <- app_assoc.
    + by constructor.
    + destruct r as [[tp' tb']|e]; simpl.
      * destruct Hr as (Hlen & -> & ->). subst c. simpl.
        repeat split; lia.
      * lia.
Qed.

Lemma Zsum_price_bnw (new : list PageEntry.t) :
  Forall (λ c, PageEntry.price_bnw c = bnw price_config) new →
  Zsum (map PageEntry.price_bnw new) = (Z.of_nat (length new) * bnw price_config)%Z.
Proof.
  induction 1 as [|c new Hc _ IH]; [done |].
  simpl. rewrite IH, Hc. lia.
Qed.

(** The three ways [process_file_run] can end, with the entry it
    returns in each. *)
Lemma process_image_spec (filepath : string) (entry0 : Entry.t) :
  Entry.colors entry0 = [] →
  match process_image W filepath price_config entry0 with
  | (entry, Ok _) =>
      ∃ c, Entry.colors entry = [c]
           ∧ PageEntry.price_bnw c = bnw price_config
           ∧ Entry.total_pages entry = 1%nat
           ∧ Entry.total_price entry = PageEntry.price c
           ∧ Entry.total_price_bnw entry = bnw price_config
  | (entry, Raise _) => entry = entry0
  end.
Proof.
  intros Hc. unfold process_image. exec_unfold.
  destruct (imread W filepath) as [img|]; [| done].
  destruct (analyze_never_raises W img) as [p ->].
  destruct (calculate_price_for_percentage p price_config) as [category price].
  simpl. rewrite Hc. eexists. repeat split.
Qed.

Lemma process_pdf_spec (path : string) (entry0 : Entry.t) :
  Entry.colors entry0 = [] →
  match process_pdf W path price_config entry0 with
  | (entry, Ok _) =>
      Forall (λ c, PageEntry.price_bnw c = bnw price_config) (Entry.colors entry)
      ∧ length (Entry.colors entry) ≤ Entry.total_pages entry
      ∧ Entry.total_price entry = Zsum (map PageEntry.price (Entry.colors entry))
      ∧ Entry.total_price_bnw entry = Zsum (map PageEntry.price_bnw (Entry.colors entry))
  | (entry, Raise _) =>
      entry = entry0
      ∨ (length (Entry.colors entry) < Entry.total_pages entry)%nat
  end.
Proof.
  intros Hc. unfold process_pdf, page_count. exec_unfold.
  destruct (fitz_open W path) as [doc|e]; [| by left].
  destruct (pdf_pages_loop_spec (doc_pages doc) 0 0%Z 0%Z
              (Entry.set_total_pages
                 (length (doc_pages doc) + doc_unreached doc) entry0))
    as [new Hnew].
  destruct (pdf_pages_loop W price_config (doc_pages doc) 0 0 0
              (Entry.set_total_pages
                 (length (doc_pages doc) + doc_unreached doc) entry0))
    as [entry r].
  destruct Hnew as (-> & Hbnw & Hr). simpl in *. rewrite Hc in *. simpl.
  destruct r as [[tp tb]|e]; simpl.
  - destruct Hr as (Hlen & -> & ->). repeat split; (done || lia).
  - right. simpl. lia.
Qed.
End Aggregator.
Section PerFile.
Context (W : World) (price_config : PriceTable Z).

(** The entry returned by [process_file_run], by the way the run ended. *)
Lemma process_file_run_cases (filepath filename : string) entry o :
  process_file_run W filepath filename price_config = Ok (entry, o) →
  match o with
  | Processed =>
      totals_are_sums entry
      ∧ Forall (λ c, PageEntry.price_bnw c = bnw price_config) (Entry.colors entry)
  | ConversionFailed _ => degraded entry
  | ProcessingFailed _ =>
      degraded entry
      ∨ (length (Entry.colors entry) < Entry.total_pages entry)%nat
  end.
Proof.
  unfold process_file_run. intros Hrun.
  destruct (get_file_type filename) as [file_type|]; [| done].
  destruct (lower <$> rsplit_dot_1 filename) as [ext|]; [| done].
  simpl in Hrun.
  destruct (if bool_decide (ext ∈ ["doc"; "docx"])
            then convert_doc_to_pdf W filepath (path_dirname W filepath)
            else Ok filepath) as [processing_path|e].
  2:{ injection Hrun as <- <-. done. }
  destruct (String.eqb file_type "image").
  - pose proof (process_image_spec W price_config filepath
                  (Entry.init filename file_type) eq_refl) as Hspec.
    destruct (process_image W filepath price_config (Entry.init filename file_type))
      as [entry' [[]|e]]; injection Hrun as <- <-.
    + destruct Hspec as (c & Hc & Hb & Hn & Hp & Hpb).
      unfold totals_are_sums. rewrite Hc, Hn, Hp, Hpb. simpl. rewrite Hb.
      repeat split; try lia. by repeat constructor.
    + left. by subst entry'.
  - pose proof (process_pdf_spec W price_config processing_path
                  (Entry.init filename file_type) eq_refl) as Hspec.
    destruct (process_pdf W processing_path price_config (Entry.init filename file_type))
      as [entry' [[]|e]]; injection Hrun as <- <-.
    + destruct Hspec as (Hb & Hn & Hp & Hpb). done.
    + destruct Hspec as [-> | Hlt]; [by left | by right].
Qed.

(** A convertible document whose conversion raises gives the entry as
    it was initialised. *)
Lemma process_file_conversion_raises (filepath filename ext : string) e :
  lower <$> rsplit_dot_1 filename = Ok ext →
  ext ∈ ["doc"; "docx"] →
  convert_doc_to_pdf W filepath (path_dirname W filepath) = Raise e →
  process_file_run W filepath filename price_config
  = Ok (Entry.init filename "document", ConversionFailed e).
Proof.
  intros Hext Hin Hconv. unfold process_file_run, get_file_type.
  rewrite Hext. simpl.
  assert (bool_decide (ext ∈ ALLOWED_EXTENSIONS_IMG) = false) as ->.
  { apply elem_of_cons in Hin as [-> | Hin]; [done |].
    apply list_elem_of_singleton in Hin as ->. done. }
  simpl. rewrite bool_decide_true by done. by rewrite Hconv.
Qed.
End PerFile.

Section Conversion.
Context (W : World) (input_path output_dir : string).

(** Each failure of the converter is an exception of [convert_doc_to_pdf]. *)
Lemma convert_unavailable :
  List.find (which W) (possible_cmds W) = None →
  convert_doc_to_pdf W input_path output_dir
  = Raise (EnvironmentError "LibreOffice not found in PATH.").
Proof. intros Hno. unfold convert_doc_to_pdf. by rewrite Hno. Qed.

Lemma convert_nonzero_exit cmd stderr :
  List.find (which W) (possible_cmds W) = Some cmd →
  makedirs W (path_join W output_dir "lo_profile") = Ok tt →
  (∀ args, subprocess_run W (cmd :: args) = Raise (CalledProcessError stderr)) →
  (∃ msg, convert_doc_to_pdf W input_path output_dir = Raise (RuntimeError msg))
  ∨ convert_doc_to_pdf W input_path output_dir = Raise UnicodeDecodeError.
Proof.
  intros Hcmd Hmk Hrun. unfold convert_doc_to_pdf.
  rewrite Hcmd, Hmk. simpl. rewrite Hrun.
  destruct stderr as [bytes|]; simpl; [| eauto].
  destruct (String.eqb bytes ""); simpl; [eauto |].
  unfold decode. destruct (utf8_valid _); simpl; eauto.
Qed.

Lemma convert_output_missing cmd :
  List.find (which W) (possible_cmds W) = Some cmd →
  makedirs W (path_join W output_dir "lo_profile") = Ok tt →
  (∀ args, subprocess_run W (cmd :: args) = Ok tt) →
  path_exists W
    (path_join W output_dir
       (fst (path_splitext W (path_basename W input_path)) +:+ ".pdf")) = false →
  ∃ msg, convert_doc_to_pdf W input_path output_dir = Raise (FileNotFoundError msg).
Proof.
  intros Hcmd Hmk Hrun Hex. unfold convert_doc_to_pdf.
  rewrite Hcmd, Hmk. simpl. rewrite Hrun, Hex. eauto.
Qed.

Lemma conversion_failure_raises :
  conversion_failure W input_path output_dir →
  ∃ e, convert_doc_to_pdf W input_path output_dir = Raise e.
Proof.
  intros [Hno | cmd stderr Hcmd Hmk Hrun | cmd Hcmd Hmk Hrun Hex | e He].
  - rewrite (convert_unavailable Hno). eauto.
  - destruct (convert_nonzero_exit cmd stderr Hcmd Hmk Hrun) as [[msg ->] | ->];
      eauto.
  - destruct (convert_output_missing cmd Hcmd Hmk Hrun Hex) as [msg ->]. eauto.
  - eauto.
Qed.
End Conversion.

Section Batch.
Context (W : World) (current_prices : PriceTable Z) (request_temp_dir : string).

Lemma detect_colors_loop_acc (files : list string) :
  ∀ acc,
    detect_colors_loop W current_prices request_temp_dir files acc
    = (acc ++.) <$> detect_colors_loop W current_prices request_temp_dir files [].
Proof.
  induction files as [|file rest IH]; intros acc; simpl.
  - by rewrite app_nil_r.
  - destruct (negb (String.eqb file "") && allowed_file file); [| apply IH].
    destruct (file_save W _); [| done]. simpl.
    destruct (process_file_logic W _ _ current_prices) as [r|]; [| done]. simpl.
    rewrite (IH (acc ++ [r])), (IH [r]).
    destruct (detect_colors_loop W current_prices request_temp_dir rest []); simpl;
      [| done].
    by rewrite <- app_assoc.
Qed.

Lemma detect_colors_loop_app (pre post : list string) :
  ∀ acc,
    detect_colors_loop W current_prices request_temp_dir (pre ++ post) acc
    = detect_colors_loop W current_prices request_temp_dir pre acc
      ≫= detect_colors_loop W current_prices request_temp_dir post.
Proof.
  induction pre as [|file rest IH]; intros acc; simpl; [done |].
  destruct (negb (String.eqb file "") && allowed_file file); [| apply IH].
  destruct (file_save W _); [| done]. simpl.
  destruct (process_file_logic W _ _ current_prices) as [r|]; [| done]. simpl.
  apply IH.
Qed.
End Batch.
(** C9: every per-page entry carries the table's bnw price, but
    total_price_bnw is not always total_pages * bnw.  On a PDF that
    declares two pages and holds one, the processing runs to its end:
    total_pages is the declared 2, the one entry has price_bnw 500 and
    total_price_bnw is 500, not 2 * 500. *)
Theorem declared_pages_break_bnw_total :
  ∃ entry,
    process_file_run short_document_world "/tmp/req/scan.pdf" "scan.pdf"
      Reference.default_price_table = Ok (entry, Processed)
    ∧ Entry.total_pages entry = 2
    ∧ length (Entry.colors entry) = 1
    ∧ Forall (λ c, PageEntry.price_bnw c = bnw Reference.default_price_table)
        (Entry.colors entry)
    ∧ Entry.total_price_bnw entry = 500%Z
    ∧ Entry.total_price_bnw entry
      ≠ (Z.of_nat (Entry.total_pages entry) * bnw Reference.default_price_table)%Z.
Proof.
  eexists. split; [reflexivity |]. simpl.
  repeat split; try done. by repeat constructor.
Qed.

(** C5: a doc/docx file whose conversion fails (converter not found,
    non-zero exit, output file missing, or any other exception) gives,
    without raising, the degraded entry: no page, zero totals, no per-page
    entry; in a batch that entry takes the file's place and the entries of
    the files before and after it are those of the batch without it. *)
Theorem conversion_failure_degrades (W : World) (current_prices : PriceTable Z)
    (request_temp_dir file ext : string) (pre post : list string) :
  file ≠ "" →
  allowed_file file = true →
  file_save W (path_join W request_temp_dir (secure_filename W file)) = Ok tt →
  lower <$> rsplit_dot_1 (secure_filename W file) = Ok ext →
  ext ∈ ["doc"; "docx"] →
  conversion_failure W
    (path_join W request_temp_dir (secure_filename W file))
    (path_dirname W (path_join W request_temp_dir (secure_filename W file))) →
  ∃ entry,
    process_file_logic W (path_join W request_temp_dir (secure_filename W file))
      (secure_filename W file) current_prices = Ok entry
    ∧ degraded entry
    ∧ detect_colors_loop W current_prices request_temp_dir (pre ++ file :: post) []
      = (before ← detect_colors_loop W current_prices request_temp_dir pre [];
         after ← detect_colors_loop W current_prices request_temp_dir post [];
         Ok (before ++ entry :: after)).
Proof.
  intros Hne Hallowed Hsave Hext Hin Hfail.
  apply conversion_failure_raises in Hfail as [e Hconv].
  pose proof (process_file_conversion_raises W current_prices _ _ _ _
                Hext Hin Hconv) as Hrun.
  assert (process_file_logic W
            (path_join W request_temp_dir (secure_filename W file))
            (secure_filename W file) current_prices
          = Ok (Entry.init (secure_filename W file) "document")) as Hlogic.
  { unfold process_file_logic. by rewrite Hrun. }
  exists (Entry.init (secure_filename W file) "document").
  split; [done |]. split; [done |].
  rewrite detect_colors_loop_app.
  destruct (detect_colors_loop W current_prices request_temp_dir pre [])
    as [before|]; [| done].
  simpl. apply String.eqb_neq in Hne. rewrite Hne, Hallowed. simpl.
  rewrite Hsave. simpl. rewrite Hlogic. simpl.
  rewrite detect_colors_loop_acc.
  destruct (detect_colors_loop W current_prices request_temp_dir post [])
    as [after|]; [| done].
  simpl. by rewrite <- app_assoc.
Qed.

Lemma conversion_failure_degrades_witness :
  ∃ entry,
    process_file_logic no_converter_world "/tmp/req/report.docx" "report.docx"
      Reference.default_price_table = Ok entry
    ∧ degraded entry
    ∧ detect_colors_loop no_converter_world Reference.default_price_table "/tmp/req"
        (["photo.png"] ++ "report.docx" :: ["scan.pdf"]) []
      = (before ← detect_colors_loop no_converter_world
                    Reference.default_price_table "/tmp/req" ["photo.png"] [];
         after ← detect_colors_loop no_converter_world
                   Reference.default_price_table "/tmp/req" ["scan.pdf"] [];
         Ok (before ++ entry :: after)).
Proof.
  apply (conversion_failure_degrades no_converter_world
           Reference.default_price_table "/tmp/req" "report.docx" "docx"
           ["photo.png"] ["scan.pdf"]).
  - discriminate.
  - reflexivity.
  - reflexivity.
  - reflexivity.
  - repeat constructor.
  - apply converter_unavailable. reflexivity.
Defined.

(** C3: the invariant of a per-file result (totals equal to the sums over
    the per-page entries, total_pages equal to their number, or else the
    degraded result) is broken by an exception inside the page loop.  On a
    two-page PDF whose first page renders and whose second page cannot be
    rendered, the entry returned has total_pages = 2 but one per-page
    entry, and zero totals although that entry is priced 500. *)
Theorem page_failure_breaks_totals :
  ∃ entry,
    process_file_logic
      (Reference.pdf_world [Reference.rendered white_page; Reference.unrenderable])
      "/tmp/req/scan.pdf" "scan.pdf" Reference.default_price_table = Ok entry
    ∧ Entry.total_pages entry = 2
    ∧ length (Entry.colors entry) = 1
    ∧ Entry.total_price entry = 0%Z
    ∧ Zsum (map PageEntry.price (Entry.colors entry)) = 500%Z
    ∧ Entry.total_price_bnw entry = 0%Z
    ∧ Zsum (map PageEntry.price_bnw (Entry.colors entry)) = 500%Z
    ∧ ¬ totals_consistent entry
    ∧ ¬ degraded entry.
Proof.
  eexists. split; [reflexivity |]. simpl.
  repeat split; try reflexivity.
  - intros (H & _). discriminate H.
  - intros (H & _). discriminate H.
Qed.

(** ** Channel normalisation on the reference conversions *)

Lemma flat_map_seq_S {A} (f : nat → list A) (a n : nat) :
  flat_map f (seq (S a) n) = flat_map (λ i, f (S i)) (seq a n).
Proof.
  revert a. induction n as [|n IH]; intros a; [done |].
  simpl. by rewrite IH.
Qed.

Lemma gray_pixels (samples : list Z) :
  flat_map (λ i, Reference.gray2bgr (take 1 (drop (i * 1) samples)))
    (seq 0 (length samples))
  = triple_gray samples.
Proof.
  induction samples as [|y rest IH]; [done |].
  simpl length. simpl seq. simpl flat_map at 1.
  rewrite flat_map_seq_S. unfold triple_gray in *. simpl. do 3 f_equal.
  exact IH.
Qed.

Lemma rgb_pixels (n : nat) :
  ∀ samples, length samples = n * 3 →
    flat_map (λ i, Reference.rgb2bgr (take 3 (drop (i * 3) samples))) (seq 0 n)
    = swap_rb samples.
Proof.
  induction n as [|n IH]; intros samples Hlen.
  - by destruct samples.
  - destruct samples as [|r [|g [|b rest]]]; try discriminate.
    simpl seq. simpl flat_map at 1. rewrite flat_map_seq_S.
    simpl. do 3 f_equal. apply IH. simpl in Hlen. lia.
Qed.

Section Normalisation.
Context (W : World) (Hcv : cvtColor W = Reference.cvtColor8u).

Lemma pixmap_to_bgr_gray (h w : nat) (samples : list Z) :
  length samples = h * w → h * w ≠ 0 →
  pixmap_to_bgr W (mkPixmap 1 h w samples)
  = Ok (mkArray h w 3 (triple_gray samples)).
Proof.
  intros Hlen Hne. unfold pixmap_to_bgr, reshape. simpl.
  rewrite Nat.mul_1_r. rewrite (proj2 (Nat.eqb_eq _ _) Hlen). simpl.
  rewrite Hcv. unfold Reference.cvtColor8u. simpl.
  rewrite (proj2 (Nat.eqb_neq _ _) Hne).
  unfold Reference.map_pixels, Reference.pixel_at. simpl.
  rewrite <- Hlen. by rewrite gray_pixels.
Qed.

Lemma pixmap_to_bgr_rgb (h w : nat) (samples : list Z) :
  length samples = h * w * 3 → h * w ≠ 0 →
  pixmap_to_bgr W (mkPixmap 3 h w samples)
  = Ok (mkArray h w 3 (swap_rb samples)).
Proof.
  intros Hlen Hne. unfold pixmap_to_bgr, reshape. simpl.
  rewrite (proj2 (Nat.eqb_eq _ _) Hlen). simpl.
  rewrite Hcv. unfold Reference.cvtColor8u. simpl.
  rewrite (proj2 (Nat.eqb_neq _ _) Hne).
  unfold Reference.map_pixels, Reference.pixel_at. simpl.
  by rewrite rgb_pixels.
Qed.
End Normalisation.

(** X2: one-channel and three-channel pages are normalised: a gray page is
    expanded to three equal channels and an RGB page has its red and blue
    samples exchanged, so that the classifier receives a three-channel BGR
    buffer of the page's height and width in both cases. *)
Theorem pixmap_to_bgr_normalises (W : World) (n h w : nat) (samples : list Z) :
  cvtColor W = Reference.cvtColor8u →
  length samples = h * w * n →
  h * w ≠ 0 →
  (n = 1 → pixmap_to_bgr W (mkPixmap n h w samples)
           = Ok (mkArray h w 3 (triple_gray samples)))
  ∧ (n = 3 → pixmap_to_bgr W (mkPixmap n h w samples)
             = Ok (mkArray h w 3 (swap_rb samples))).
Proof.
  intros Hcv Hlen Hne. split; intros ->.
  - apply pixmap_to_bgr_gray; [done | lia | done].
  - by apply pixmap_to_bgr_rgb.
Qed.

Lemma pixmap_to_bgr_normalises_witness :
  (1 = 1 → pixmap_to_bgr (Reference.pdf_world []) (mkPixmap 1 1 2 [7; 9]%Z)
           = Ok (mkArray 1 2 3 [7; 7; 7; 9; 9; 9]%Z))
  ∧ (1 = 3 → pixmap_to_bgr (Reference.pdf_world []) (mkPixmap 1 1 2 [7; 9]%Z)
             = Ok (mkArray 1 2 3 (swap_rb [7; 9]%Z))).
Proof.
  apply (pixmap_to_bgr_normalises (Reference.pdf_world []) 1 1 2 [7; 9]%Z);
    [reflexivity | reflexivity | discriminate].
Defined.

(** C8: with OpenCV's conversions, the buffer of a rendered page handed
    to the classifier is a three-channel BGR buffer of the page's height
    and width.  A page rendered in RGB, as the rasterizer renders every
    page, has the red and blue samples of every pixel exchanged; a
    one-channel page is expanded to three equal channels; and whatever
    the pixmap, a buffer that reaches the classifier has three channels,
    and comes from the expansion when the pixmap had fewer than three. *)
Theorem rendered_page_handed_as_bgr (W : World) (pix : Pixmap) :
  cvtColor W = Reference.cvtColor8u →
  length (pix_samples pix) = pix_h pix * pix_w pix * pix_n pix →
  pix_h pix * pix_w pix ≠ 0 →
  (pix_n pix = 3 →
     pixmap_to_bgr W pix
     = Ok (mkArray (pix_h pix) (pix_w pix) 3 (swap_rb (pix_samples pix))))
  ∧ (pix_n pix = 1 →
       pixmap_to_bgr W pix
       = Ok (mkArray (pix_h pix) (pix_w pix) 3 (triple_gray (pix_samples pix))))
  ∧ (∀ img, pixmap_to_bgr W pix = Ok img →
       rows img = pix_h pix ∧ cols img = pix_w pix ∧ chans img = 3
       ∧ (pix_n pix < 3 → buf img = triple_gray (pix_samples pix))).
Proof.
  intros Hcv Hlen Hne. destruct pix as [n h w samples]. simpl in *.
  split; [| split].
  - intros ->. by apply pixmap_to_bgr_rgb.
  - intros ->. apply pixmap_to_bgr_gray; [done | lia | done].
  - intros img. destruct (Nat.ltb_spec n 3) as [Hlt|Hge].
    + destruct (Nat.eq_dec n 1) as [->|Hn1].
      * rewrite (pixmap_to_bgr_gray W Hcv h w samples) by (done || lia).
        intros [= <-]. done.
      * unfold pixmap_to_bgr, reshape. simpl.
        destruct (Nat.ltb_spec n 3); [| lia].
        destruct (length samples =? h * w * n); simpl; [| done].
        rewrite Hcv. unfold Reference.cvtColor8u. simpl.
        destruct (h * w =? 0); [done |].
        destruct (Nat.eqb_spec n 1); [lia | done].
    + unfold pixmap_to_bgr, reshape. simpl.
      destruct (Nat.ltb_spec n 3); [lia |].
      destruct (length samples =? h * w * n); simpl; [| done].
      rewrite Hcv. unfold Reference.cvtColor8u. simpl.
      destruct (h * w =? 0); [done |].
      destruct ((n =? 3) || (n =? 4)); [| done].
      intros [= <-]. simpl. repeat split; lia.
Qed.

Lemma rendered_page_handed_as_bgr_witness :
  pixmap_to_bgr (Reference.pdf_world []) saturated_page
  = Ok (mkArray 1 2 3 [0; 0; 255; 0; 255; 0]%Z).
Proof.
  destruct (rendered_page_handed_as_bgr (Reference.pdf_world []) saturated_page)
    as (Hrgb & _ & _); [reflexivity | reflexivity | discriminate |].
  apply Hrgb. reflexivity.
Defined.

(** X1: when the processing of a file runs to its end the totals are the
    sums over the per-page entries, total_price_bnw is the number of
    entries times the bnw price, and there are no more entries than
    total_pages; when the conversion of the document fails the result is
    the degraded one. *)
Theorem processed_totals_consistent (W : World) (price_config : PriceTable Z)
    (filepath filename : string) (entry : Entry.t) (o : outcome) :
  process_file_run W filepath filename price_config = Ok (entry, o) →
  (o = Processed →
     totals_are_sums entry
     ∧ Entry.total_price_bnw entry
       = (Z.of_nat (length (Entry.colors entry)) * bnw price_config)%Z)
  ∧ (∀ e, o = ConversionFailed e → degraded entry).
Proof.
  intros Hrun. apply process_file_run_cases in Hrun.
  split; [intros -> | intros e ->]; [| done].
  destruct Hrun as [Hsums Hbnw]. split; [done |].
  destruct Hsums as (_ & -> & _). by apply Zsum_price_bnw.
Qed.

Lemma processed_totals_consistent_witness :
  totals_are_sums
    (Entry.mk "scan.pdf" "document" 2 500 500
       [PageEntry.mk 1 "black_and_white" 500 500 (0 # 100)])
  ∧ 500%Z = (Z.of_nat 1 * 500)%Z.
Proof.
  apply (proj1 (processed_totals_consistent short_document_world
                  Reference.default_price_table "/tmp/req/scan.pdf" "scan.pdf"
                  (Entry.mk "scan.pdf" "document" 2 500 500
                     [PageEntry.mk 1 "black_and_white" 500 500 (0 # 100)])
                  Processed eq_refl) eq_refl).
Defined.

(** X3: a file whose sanitised name has no dot makes [process_file_logic]
    raise [IndexError] before its [try] block, and the batch loop raises
    with it: no result is returned for any file of the batch. *)
Theorem dotless_name_aborts_batch (W : World) (current_prices : PriceTable Z)
    (request_temp_dir file : string) (pre post : list string) (before : list Entry.t) :
  file ≠ "" →
  allowed_file file = true →
  file_save W (path_join W request_temp_dir (secure_filename W file)) = Ok tt →
  has_dot (secure_filename W file) = false →
  detect_colors_loop W current_prices request_temp_dir pre [] = Ok before →
  process_file_logic W (path_join W request_temp_dir (secure_filename W file))
    (secure_filename W file) current_prices = Raise IndexError
  ∧ detect_colors_loop W current_prices request_temp_dir (pre ++ file :: post) []
    = Raise IndexError.
Proof.
  intros Hne Hallowed Hsave Hdot Hpre.
  assert (rsplit_dot (secure_filename W file) = None) as Hsplit.
  { clear -Hdot. induction (secure_filename W file) as [|c s IH]; [done |].
    simpl in *. destruct (Ascii.eqb c "."); [done |]. by rewrite IH. }
  assert (process_file_logic W (path_join W request_temp_dir (secure_filename W file))
            (secure_filename W file) current_prices = Raise IndexError) as Hlogic.
  { unfold process_file_logic, process_file_run, get_file_type, rsplit_dot_1.
    by rewrite Hsplit. }
  split; [done |].
  rewrite detect_colors_loop_app, Hpre. simpl.
  apply String.eqb_neq in Hne. rewrite Hne, Hallowed. simpl.
  rewrite Hsave. simpl. by rewrite Hlogic.
Qed.
Lemma dotless_name_aborts_batch_witness :
  process_file_logic stripping_world "/tmp/req/pdf" "pdf"
    Reference.default_price_table = Raise IndexError
  ∧ detect_colors_loop stripping_world Reference.default_price_table "/tmp/req"
      ([] ++ ".pdf" :: ["photo.png"]) []
    = Raise IndexError.
Proof.
  apply (dotless_name_aborts_batch stripping_world Reference.default_price_table
           "/tmp/req" ".pdf" [] ["photo.png"] []);
    [discriminate | reflexivity ..].
Defined.

(** ** The program on the pages of the specification's examples *)

Example all_white_image :
  process_file_logic
    (Reference.image_world (Some (mkArray 1 2 3 [255; 255; 255; 255; 255; 255]%Z)))
    "/tmp/req/blank.png" "blank.png" Reference.default_price_table
  = Ok (Entry.mk "blank.png" "image" 1 500 500
          [PageEntry.mk 1 "black_and_white" 500 500 (0 # 100)]).
Proof. reflexivity. Qed.

Example fully_saturated_image :
  process_file_logic
    (Reference.image_world (Some (mkArray 1 2 3 [255; 0; 0; 0; 0; 255]%Z)))
    "/tmp/req/flag.jpg" "flag.jpg" Reference.default_price_table
  = Ok (Entry.mk "flag.jpg" "image" 1 1500 500
          [PageEntry.mk 1 "full_color" 1500 500 (10000 # 100)]).
Proof. reflexivity. Qed.

Example blank_then_saturated_pdf :
  process_file_logic
    (Reference.pdf_world [Reference.rendered white_page; Reference.rendered saturated_page])
    "/tmp/req/two.pdf" "two.pdf" Reference.default_price_table
  = Ok (Entry.mk "two.pdf" "document" 2 2000 1000
          [PageEntry.mk 1 "black_and_white" 500 500 (0 # 100);
           PageEntry.mk 2 "full_color" 1500 500 (10000 # 100)]).
Proof. reflexivity. Qed.

Example unreadable_image :
  process_file_run (Reference.image_world None)
    "/tmp/req/broken.png" "broken.png" Reference.default_price_table
  = Ok (Entry.init "broken.png" "image",
        ProcessingFailed (ValueError "Could not read image file.")).
Proof. reflexivity. Qed.

Example two_channel_buffer_classified_as_zero :
  analyze_image_array (Reference.image_world None) (mkArray 1 1 2 [200; 255]%Z)
  = Ok 0%Q.
Proof. reflexivity. Qed.

(** * Further properties *)

(** ** File names *)

Lemma rsplit_dot_None (s : string) :
  rsplit_dot s = None ↔ has_dot s = false.
Proof.
  induction s as [|c s IH]; simpl; [done |].
  destruct (rsplit_dot s) as [[h t]|].
  - destruct (Ascii.eqb c "."); [done |].
    split; [done |]. intros Hd. apply IH in Hd. done.
  - destruct (Ascii.eqb c "."); [done |]. split; [| done]. intros _. by apply IH.
Qed.

(** Splitting at the last dot: the tail holds no dot and the name is the
    head, a dot and the tail. *)
Lemma rsplit_dot_Some (s h t : string) :
  rsplit_dot s = Some (h, t) ↔ s = h +:+ "." +:+ t ∧ has_dot t = false.
Proof.
  split.
  - revert h t. induction s as [|c s IH]; intros h t; simpl; [done |].
    destruct (rsplit_dot s) as [[h' t']|] eqn:Hs.
    + intros [= <- <-]. destruct (IH h' t' eq_refl) as [-> Ht]. done.
    + destruct (Ascii.eqb_spec c "."); [| done].
      intros [= <- <-]. subst c. split; [done |]. by apply rsplit_dot_None.
  - intros [-> Ht]. induction h as [|c h IH]; simpl.
    + change ("" +:+ t) with t. apply rsplit_dot_None in Ht. by rewrite Ht.
    + by rewrite IH.
Qed.


(** X4: a name is allowed exactly when it ends in a dot followed by one of
    the six extensions, in any letter case; the extension is what follows
    the last dot. *)
Theorem allowed_file_extension (filename : string) :
  allowed_file filename = true
  ↔ ∃ stem ext,
      filename = stem +:+ "." +:+ ext
      ∧ has_dot ext = false
      ∧ lower ext ∈ ALLOWED_EXTENSIONS_DOC ∪ ALLOWED_EXTENSIONS_IMG.
Proof.
  unfold allowed_file. split.
  - intros H. apply andb_true_iff in H as [_ H].
    destruct (rsplit_dot filename) as [[stem ext]|] eqn:Hs; [| done].
    apply rsplit_dot_Some in Hs as [-> Hext].
    exists stem, ext. repeat split; [done |].
    apply elem_of_union.
    apply orb_true_iff in H as [H | H]; apply bool_decide_eq_true in H; auto.
  - intros (stem & ext & -> & Hext & Hin).
    assert (rsplit_dot (stem +:+ "." +:+ ext) = Some (stem, ext)) as Hs
      by by apply rsplit_dot_Some.
    rewrite Hs. apply andb_true_iff. split.
    + destruct (has_dot (stem +:+ "." +:+ ext)) eqn:Hd; [done |].
      apply rsplit_dot_None in Hd. congruence.
    + apply orb_true_iff. apply elem_of_union in Hin as [Hin | Hin];
        [left | right]; by apply bool_decide_eq_true.
Qed.

(** X5: the declared type of a name: [IndexError] when the name has no
    dot; otherwise image when the lower-cased extension is jpg, jpeg or
    png and document for every other extension, allowed or not.  An
    allowed name always has a type. *)
Theorem get_file_type_cases (filename : string) :
  (has_dot filename = false → get_file_type filename = Raise IndexError)
  ∧ (∀ stem ext, filename = stem +:+ "." +:+ ext → has_dot ext = false →
       get_file_type filename
       = Ok (if bool_decide (lower ext ∈ ALLOWED_EXTENSIONS_IMG)
             then "image" else "document"))
  ∧ (allowed_file filename = true →
       get_file_type filename = Ok "image" ∨ get_file_type filename = Ok "document").
Proof.
  unfold get_file_type, rsplit_dot_1. split; [| split].
  - intros Hd. apply rsplit_dot_None in Hd. by rewrite Hd.
  - intros stem ext -> Hext.
    assert (rsplit_dot (stem +:+ "." +:+ ext) = Some (stem, ext)) as ->
      by by apply rsplit_dot_Some.
    simpl. by case_bool_decide.
  - intros H. unfold allowed_file in H. apply andb_true_iff in H as [_ H].
    destruct (rsplit_dot filename) as [[stem ext]|]; [| done].
    simpl. clear H.
    destruct (bool_decide (lower ext ∈ ALLOWED_EXTENSIONS_IMG)); eauto.
Qed.

(** ** The page loop as a function of the pages *)

Section PageLoop.
Context (W : World) (price_config : PriceTable Z).

(** The loop appends the entries of [classify_pages] and adds their prices
    to the running totals; it touches nothing else. *)
Lemma pdf_pages_loop_classify (pages : list Page) :
  ∀ page_num tp tb entry,
    pdf_pages_loop W price_config pages page_num tp tb entry
    = (Entry.mk (Entry.filename entry) (Entry.type entry)
         (Entry.total_pages entry) (Entry.total_price entry)
         (Entry.total_price_bnw entry)
         (Entry.colors entry ++ (classify_pages W price_config pages page_num).1),
       match (classify_pages W price_config pages page_num).2 with
       | None =>
           Ok ((tp + Zsum (map PageEntry.price
                             (classify_pages W price_config pages page_num).1))%Z,
               (tb + Zsum (map PageEntry.price_bnw
                             (classify_pages W price_config pages page_num).1))%Z)
       | Some e => Raise e
       end).
Proof.
  induction pages as [|page rest IH]; intros page_num tp tb entry.
  - simpl. unfold exec_ret. destruct entry; simpl. rewrite app_nil_r.
    do 3 f_equal; lia.
  - simpl. unfold classify_page. exec_unfold.
    destruct (get_pixmap page (3 # 2) (3 # 2)) as [pix|e]; simpl.
    2:{ destruct entry; simpl. by rewrite app_nil_r. }
    destruct (pixmap_to_bgr W pix) as [img|e]; simpl.
    2:{ destruct entry; simpl. by rewrite app_nil_r. }
    destruct (analyze_image_array W img) as [p|e]; simpl.
    2:{ destruct entry; simpl. by rewrite app_nil_r. }
    destruct (calculate_price_for_percentage p price_config) as [category price].
    rewrite IH. simpl.
    destruct (classify_pages W price_config rest (S page_num)) as [cs err]. simpl.
    rewrite <- app_assoc. simpl. f_equal.
    destruct err; [done |]. do 2 f_equal; lia.
Qed.

Lemma classify_page_resolved page_num page c :
  classify_page W price_config page_num page = Ok c →
  PageEntry.page c = page_num + 1 ∧ entry_resolved price_config c.
Proof.
  unfold classify_page.
  destruct (get_pixmap page (3 # 2) (3 # 2)) as [pix|]; simpl; [| done].
  destruct (pixmap_to_bgr W pix) as [img|]; simpl; [| done].
  destruct (analyze_image_array W img) as [p|]; simpl; [| done].
  intros [= <-]. unfold entry_resolved. simpl.
  by destruct (calculate_price_for_percentage p price_config).
Qed.

Lemma classify_pages_facts (pages : list Page) :
  ∀ page_num,
    map PageEntry.page (classify_pages W price_config pages page_num).1
    = seq (page_num + 1) (length (classify_pages W price_config pages page_num).1)
    ∧ Forall (entry_resolved price_config)
        (classify_pages W price_config pages page_num).1
    ∧ match (classify_pages W price_config pages page_num).2 with
      | None => length (classify_pages W price_config pages page_num).1 = length pages
      | Some _ => length (classify_pages W price_config pages page_num).1 < length pages
      end.
Proof.
  induction pages as [|page rest IH]; intros page_num; simpl.
  - repeat split; constructor.
  - destruct (classify_page W price_config page_num page) as [c|e] eqn:Hc; simpl.
    2:{ repeat split; [constructor | lia]. }
    apply classify_page_resolved in Hc as [Hp Hr].
    destruct (IH (S page_num)) as (Hnum & Hres & Hlen).
    destruct (classify_pages W price_config rest (S page_num)) as [cs err].
    simpl in *. split; [| split].
    + rewrite Hp, Hnum; repeat f_equal; lia.
    + by constructor.
    + destruct err; lia.
Qed.

(** [process_pdf] on a fresh entry. *)
Lemma process_pdf_classify (path filename file_type : string) :
  process_pdf W path price_config (Entry.init filename file_type)
  = match fitz_open W path with
    | Raise e => (Entry.init filename file_type, Raise e)
    | Ok doc =>
        match (classify_pages W price_config (doc_pages doc) 0).2 with
        | None =>
            (Entry.mk filename file_type (page_count doc)
               (Zsum (map PageEntry.price
                        (classify_pages W price_config (doc_pages doc) 0).1))
               (Zsum (map PageEntry.price_bnw
                        (classify_pages W price_config (doc_pages doc) 0).1))
               (classify_pages W price_config (doc_pages doc) 0).1,
             Ok tt)
        | Some e =>
            (Entry.mk filename file_type (page_count doc) 0 0
               (classify_pages W price_config (doc_pages doc) 0).1,
             Raise e)
        end
    end.
Proof.
  unfold process_pdf. exec_unfold.
  destruct (fitz_open W path) as [doc|e]; [| done].
  rewrite pdf_pages_loop_classify. simpl.
  by destruct (classify_pages W price_config (doc_pages doc) 0).2.
Qed.

(** [process_image] on a fresh entry. *)
Lemma process_image_classify (filepath filename file_type : string) :
  process_image W filepath price_config (Entry.init filename file_type)
  = match imread W filepath with
    | None => (Entry.init filename file_type,
               Raise (ValueError "Could not read image file."))
    | Some img =>
        match analyze_image_array W img with
        | Ok p =>
            (Entry.mk filename file_type 1
               (snd (calculate_price_for_percentage p price_config))
               (bnw price_config)
               [PageEntry.mk 1 (fst (calculate_price_for_percentage p price_config))
                  (snd (calculate_price_for_percentage p price_config))
                  (bnw price_config) p],
             Ok tt)
        | Raise e => (Entry.set_total_pages 1 (Entry.init filename file_type), Raise e)
        end
    end.
Proof.
  unfold process_image. exec_unfold.
  destruct (imread W filepath) as [img|]; [| done].
  destruct (analyze_image_array W img) as [p|e]; [| done].
  by destruct (calculate_price_for_percentage p price_config).
Qed.

(** What every entry returned by [process_file_run] satisfies, however
    the run ended. *)
Lemma process_file_run_entry (filepath filename : string) entry o :
  process_file_run W filepath filename price_config = Ok (entry, o) →
  Entry.filename entry = filename
  ∧ get_file_type filename = Ok (Entry.type entry)
  ∧ map PageEntry.page (Entry.colors entry) = seq 1 (length (Entry.colors entry))
  ∧ Forall (entry_resolved price_config) (Entry.colors entry)
  ∧ (Entry.type entry = "image" → totals_consistent entry).
Proof.
  unfold process_file_run. intros Hrun.
  destruct (get_file_type filename) as [file_type|]; [| done].
  destruct (lower <$> rsplit_dot_1 filename) as [ext|]; [| done].
  simpl in Hrun.
  destruct (if bool_decide (ext ∈ ["doc"; "docx"])
            then convert_doc_to_pdf W filepath (path_dirname W filepath)
            else Ok filepath) as [processing_path|e].
  2:{ injection Hrun as <- <-. simpl. repeat split; constructor. }
  destruct (String.eqb_spec file_type "image") as [Himg|Hdoc].
  - rewrite process_image_classify in Hrun.
    destruct (imread W filepath) as [img|].
    2:{ injection Hrun as <- <-. simpl. repeat split; constructor. }
    destruct (analyze_never_raises W img) as [p Hp]. rewrite Hp in Hrun.
    injection Hrun as <- <-. simpl.
    split; [done |]. split; [done |]. split; [done |]. split.
    + repeat constructor. simpl.
      by destruct (calculate_price_for_percentage p price_config).
    + intros _. unfold totals_consistent. simpl. repeat split; lia.
  - rewrite process_pdf_classify in Hrun.
    destruct (fitz_open W processing_path) as [doc|].
    2:{ injection Hrun as <- <-. simpl. repeat split; (done || constructor). }
    destruct (classify_pages_facts (doc_pages doc) 0) as (Hnum & Hres & _).
    destruct (classify_pages W price_config (doc_pages doc) 0).2;
      injection Hrun as <- <-; simpl; repeat split; done.
Qed.
End PageLoop.
(** ** Per-file results, whatever the outcome *)

Lemma process_file_logic_run (W : World) (price_config : PriceTable Z)
    (filepath filename : string) (entry : Entry.t) :
  process_file_logic W filepath filename price_config = Ok entry →
  ∃ o, process_file_run W filepath filename price_config = Ok (entry, o).
Proof.
  unfold process_file_logic.
  destruct (process_file_run W filepath filename price_config) as [[e o]|];
    [| done].
  intros [= <-]. eauto.
Qed.

(** X6: every entry returned for a file carries the file's name, its
    per-page entries are numbered 1, 2, 3, ... in order, and the tier and
    price of each are the resolver's answer for the entry's percentage,
    with the table's bnw price beside them; this holds also when the
    processing was interrupted. *)
Theorem entries_numbered_and_resolved (W : World) (price_config : PriceTable Z)
    (filepath filename : string) (entry : Entry.t) :
  process_file_logic W filepath filename price_config = Ok entry →
  Entry.filename entry = filename
  ∧ map PageEntry.page (Entry.colors entry) = seq 1 (length (Entry.colors entry))
  ∧ Forall (entry_resolved price_config) (Entry.colors entry).
Proof.
  intros Hlogic. apply process_file_logic_run in Hlogic as [o Hrun].
  apply process_file_run_entry in Hrun as (Hname & _ & Hnum & Hres & _). done.
Qed.

Lemma entries_numbered_and_resolved_witness :
  ∃ entry,
    process_file_logic
      (Reference.pdf_world [Reference.rendered white_page; Reference.rendered blue_page])
      "/tmp/req/scan.pdf" "scan.pdf" Reference.default_price_table = Ok entry
    ∧ Entry.filename entry = "scan.pdf"
    ∧ map PageEntry.page (Entry.colors entry) = seq 1 (length (Entry.colors entry))
    ∧ Forall (entry_resolved Reference.default_price_table) (Entry.colors entry).
Proof.
  eexists. split; [reflexivity |].
  apply (entries_numbered_and_resolved
           (Reference.pdf_world
              [Reference.rendered white_page; Reference.rendered blue_page])
           Reference.default_price_table "/tmp/req/scan.pdf" "scan.pdf").
  reflexivity.
Defined.

(** X7: an image upload gives either the degraded entry (the image could
    not be read) or exactly one per-page entry, numbered 1, with
    total_pages = 1, total_price that entry's price and total_price_bnw
    the bnw price; a half-filled entry is never returned for an image. *)
Theorem image_entry_cases (W : World) (price_config : PriceTable Z)
    (filepath filename : string) (entry : Entry.t) :
  get_file_type filename = Ok "image" →
  process_file_logic W filepath filename price_config = Ok entry →
  (imread W filepath = None ∧ entry = Entry.init filename "image")
  ∨ (∃ img c,
       imread W filepath = Some img
       ∧ analyze_image_array W img = Ok (PageEntry.percentage c)
       ∧ PageEntry.page c = 1
       ∧ entry = Entry.mk filename "image" 1 (PageEntry.price c)
                   (bnw price_config) [c]).
Proof.
  intros Htype. unfold process_file_logic, process_file_run. rewrite Htype.
  unfold get_file_type in Htype.
  destruct (lower <$> rsplit_dot_1 filename) as [ext|]; [| done].
  simpl in *.
  destruct (bool_decide (ext ∈ ALLOWED_EXTENSIONS_IMG)) eqn:Himg; [| done].
  assert (bool_decide (ext ∈ ["doc"; "docx"]) = false) as ->.
  { apply bool_decide_eq_false. intros Hin.
    apply bool_decide_eq_true in Himg.
    apply elem_of_cons in Hin as [-> | Hin]; [done |].
    apply list_elem_of_singleton in Hin as ->. done. }
  rewrite process_image_classify.
  destruct (imread W filepath) as [img|]; simpl.
  - destruct (analyze_never_raises W img) as [p Hp]. rewrite Hp. simpl.
    intros [= <-]. right.
    exists img, (PageEntry.mk 1 (calculate_price_for_percentage p price_config).1
                   (calculate_price_for_percentage p price_config).2
                   (bnw price_config) p).
    done.
  - intros [= <-]. by left.
Qed.

Lemma image_entry_cases_witness :
  (imread (Reference.image_world None) "/tmp/req/broken.png" = None
   ∧ Entry.init "broken.png" "image" = Entry.init "broken.png" "image")
  ∨ (∃ img c,
       imread (Reference.image_world None) "/tmp/req/broken.png" = Some img
       ∧ analyze_image_array (Reference.image_world None) img
         = Ok (PageEntry.percentage c)
       ∧ PageEntry.page c = 1
       ∧ Entry.init "broken.png" "image"
         = Entry.mk "broken.png" "image" 1 (PageEntry.price c)
             (bnw Reference.default_price_table) [c]).
Proof.
  apply (image_entry_cases (Reference.image_world None)
           Reference.default_price_table "/tmp/req/broken.png" "broken.png");
    reflexivity.
Defined.

Lemma resolved_price_bounds (price_config : PriceTable Z) (c : PageEntry.t) :
  monotone_prices price_config →
  entry_resolved price_config c →
  (PageEntry.price_bnw c ≤ PageEntry.price c ≤ full_color price_config)%Z.
Proof.
  intros (H0 & H1 & H2) [Hres ->]. unfold calculate_price_for_percentage in Hres.
  destruct (Qle_bool _ 0); [| destruct (Qle_bool _ 50)];
    injection Hres as _ ->; lia.
Qed.

Lemma Zsum_bounds (price_config : PriceTable Z) (cs : list PageEntry.t) :
  Forall (λ c, (PageEntry.price_bnw c ≤ PageEntry.price c
                ≤ full_color price_config)%Z) cs →
  (Zsum (map PageEntry.price_bnw cs) ≤ Zsum (map PageEntry.price cs)
   ≤ Z.of_nat (length cs) * full_color price_config)%Z.
Proof.
  induction 1 as [|c cs Hc _ IH]; simpl; lia.
Qed.

(** X8: with a price table in which 0 <= bnw <= color <= full_color, a
    file processed to the end is never priced below its black-and-white
    price nor above total_pages times the full-color price. *)
Theorem processed_price_bounds (W : World) (price_config : PriceTable Z)
    (filepath filename : string) (entry : Entry.t) :
  monotone_prices price_config →
  process_file_run W filepath filename price_config = Ok (entry, Processed) →
  (Entry.total_price_bnw entry ≤ Entry.total_price entry
   ≤ Z.of_nat (Entry.total_pages entry) * full_color price_config)%Z.
Proof.
  intros Hmono Hrun.
  pose proof (process_file_run_entry _ _ _ _ _ _ Hrun) as (_ & _ & _ & Hres & _).
  apply process_file_run_cases in Hrun as [(Hp & Hb & Hn) _].
  rewrite Hp, Hb.
  destruct (Zsum_bounds price_config (Entry.colors entry)) as [Hlo Hhi].
  { eapply Forall_impl; [exact Hres |]. intros c Hc.
    by apply resolved_price_bounds. }
  split; [done |]. etrans; [exact Hhi |].
  destruct Hmono as (H0 & H1 & H2).
  apply Z.mul_le_mono_nonneg_r; lia.
Qed.

Lemma processed_price_bounds_witness :
  (1000 ≤ 2000 ≤ Z.of_nat 2 * 1500)%Z.
Proof.
  apply (processed_price_bounds
           (Reference.pdf_world
              [Reference.rendered white_page; Reference.rendered saturated_page])
           Reference.default_price_table "/tmp/req/two.pdf" "two.pdf"
           (Entry.mk "two.pdf" "document" 2 2000 1000
              [PageEntry.mk 1 "black_and_white" 500 500 (0 # 100);
               PageEntry.mk 2 "full_color" 1500 500 (10000 # 100)])).
  - unfold monotone_prices. simpl. lia.
  - reflexivity.
Defined.

(** X9: when an exception interrupts the processing of a file, both
    totals of the entry returned are 0, whatever was appended to colors
    before; for a PDF that was opened, total_pages is the page count of the
    document and colors holds fewer entries than that. *)
Theorem interrupted_totals_zero (W : World) (price_config : PriceTable Z)
    (filepath filename : string) (entry : Entry.t) (e : exn) :
  process_file_run W filepath filename price_config
  = Ok (entry, ProcessingFailed e) →
  Entry.total_price entry = 0%Z
  ∧ Entry.total_price_bnw entry = 0%Z
  ∧ (Entry.total_pages entry = 0 ∧ Entry.colors entry = []
     ∨ ∃ path doc,
         fitz_open W path = Ok doc
         ∧ Entry.total_pages entry = page_count doc
         ∧ length (Entry.colors entry) < page_count doc).
Proof.
  unfold process_file_run. intros Hrun.
  destruct (get_file_type filename) as [file_type|]; [| done].
  destruct (lower <$> rsplit_dot_1 filename) as [ext|]; [| done].
  simpl in Hrun.
  destruct (if bool_decide (ext ∈ ["doc"; "docx"])
            then convert_doc_to_pdf W filepath (path_dirname W filepath)
            else Ok filepath) as [processing_path|]; [| done].
  destruct (String.eqb file_type "image").
  - rewrite process_image_classify in Hrun.
    destruct (imread W filepath) as [img|].
    + destruct (analyze_never_raises W img) as [p Hp]. by rewrite Hp in Hrun.
    + injection Hrun as <- <-. simpl. auto.
  - rewrite process_pdf_classify in Hrun.
    destruct (fitz_open W processing_path) as [doc|] eqn:Hopen.
    + pose proof (classify_pages_facts W price_config (doc_pages doc) 0)
        as (_ & _ & Hlen).
      destruct (classify_pages W price_config (doc_pages doc) 0).2; [| done].
      injection Hrun as <- <-. simpl. split; [done |]. split; [done |].
      right. exists processing_path, doc. unfold page_count.
      repeat split; [done | lia].
    + injection Hrun as <- <-. simpl. auto.
Qed.

Lemma interrupted_totals_zero_witness :
  ∃ entry,
    process_file_logic
      (Reference.pdf_world [Reference.rendered white_page; Reference.unrenderable])
      "/tmp/req/scan.pdf" "scan.pdf" Reference.default_price_table = Ok entry
    ∧ Entry.total_price entry = 0%Z
    ∧ Entry.total_price_bnw entry = 0%Z
    ∧ (Entry.total_pages entry = 0 ∧ Entry.colors entry = []
       ∨ ∃ path doc,
           fitz_open
             (Reference.pdf_world
                [Reference.rendered white_page; Reference.unrenderable]) path
           = Ok doc
           ∧ Entry.total_pages entry = page_count doc
           ∧ length (Entry.colors entry) < page_count doc).
Proof.
  eexists. split; [reflexivity |].
  apply (interrupted_totals_zero
           (Reference.pdf_world
              [Reference.rendered white_page; Reference.unrenderable])
           Reference.default_price_table "/tmp/req/scan.pdf" "scan.pdf" _
           (RuntimeError "cannot render page")).
  reflexivity.
Defined.

(** ** Conversion and the batch *)

Section Converted.
Context (W : World) (price_config : PriceTable Z).

Lemma process_file_run_pdf (path pdf_name : string) :
  lower <$> rsplit_dot_1 pdf_name = Ok "pdf" →
  process_file_run W path pdf_name price_config
  = match process_pdf W path price_config (Entry.init pdf_name "document") with
    | (entry, Ok _) => Ok (entry, Processed)
    | (entry, Raise e) => Ok (entry, ProcessingFailed e)
    end.
Proof.
  intros Hpdf. unfold process_file_run, get_file_type. rewrite Hpdf. reflexivity.
Qed.

Lemma process_file_run_converted (filepath filename ext pdf_path : string) :
  lower <$> rsplit_dot_1 filename = Ok ext →
  ext ∈ ["doc"; "docx"] →
  convert_doc_to_pdf W filepath (path_dirname W filepath) = Ok pdf_path →
  process_file_run W filepath filename price_config
  = match process_pdf W pdf_path price_config (Entry.init filename "document") with
    | (entry, Ok _) => Ok (entry, Processed)
    | (entry, Raise e) => Ok (entry, ProcessingFailed e)
    end.
Proof.
  intros Hext Hin Hconv. unfold process_file_run, get_file_type.
  rewrite Hext. simpl.
  assert (bool_decide (ext ∈ ALLOWED_EXTENSIONS_IMG) = false) as ->.
  { apply elem_of_cons in Hin as [-> | Hin]; [done |].
    apply list_elem_of_singleton in Hin as ->. done. }
  simpl. rewrite bool_decide_true by done. by rewrite Hconv.
Qed.
End Converted.

(** X10: a doc/docx file whose conversion succeeds is processed exactly
    as the converted PDF would be under a name ending in .pdf: the two
    results differ in the file name only. *)
Theorem converted_document_as_pdf (W : World) (price_config : PriceTable Z)
    (filepath filename ext pdf_path pdf_name : string) :
  lower <$> rsplit_dot_1 filename = Ok ext →
  ext ∈ ["doc"; "docx"] →
  convert_doc_to_pdf W filepath (path_dirname W filepath) = Ok pdf_path →
  lower <$> rsplit_dot_1 pdf_name = Ok "pdf" →
  process_file_logic W filepath filename price_config
  = renamed filename <$> process_file_logic W pdf_path pdf_name price_config.
Proof.
  intros Hext Hin Hconv Hpdf. unfold process_file_logic.
  rewrite (process_file_run_converted W price_config _ _ _ _ Hext Hin Hconv).
  rewrite (process_file_run_pdf W price_config _ _ Hpdf).
  rewrite !process_pdf_classify.
  destruct (fitz_open W pdf_path) as [doc|]; [| reflexivity].
  destruct (classify_pages W price_config (doc_pages doc) 0).2; reflexivity.
Qed.

Lemma converted_document_as_pdf_witness :
  process_file_logic converter_world "/tmp/req/report.docx" "report.docx"
    Reference.default_price_table
  = renamed "report.docx"
    <$> process_file_logic converter_world "/tmp/req/report.pdf" "report.pdf"
          Reference.default_price_table.
Proof.
  apply (converted_document_as_pdf converter_world Reference.default_price_table
           "/tmp/req/report.docx" "report.docx" "docx"
           "/tmp/req/report.pdf" "report.pdf");
    [reflexivity | repeat constructor | reflexivity | reflexivity].
Defined.


Section BatchResults.
Context (W : World) (current_prices : PriceTable Z) (request_temp_dir : string).

Lemma detect_colors_loop_results (files : list string) :
  ∀ data,
    detect_colors_loop W current_prices request_temp_dir files [] = Ok data →
    Forall2 (λ file entry, handle_upload W current_prices request_temp_dir file = Ok entry)
      (List.filter accepted files) data.
Proof.
  induction files as [|file rest IH]; intros data; simpl.
  - intros [= <-]. constructor.
  - fold (accepted file). destruct (accepted file); [| apply IH].
    unfold handle_upload.
    destruct (file_save W _) eqn:Hsave; [| done]. simpl.
    destruct (process_file_logic W _ _ current_prices) as [r|] eqn:Hr; [| done].
    simpl. rewrite detect_colors_loop_acc.
    destruct (detect_colors_loop W current_prices request_temp_dir rest [])
      as [data'|]; [| done].
    simpl. intros [= <-]. constructor; [| by apply IH].
    by rewrite Hsave.
Qed.

End BatchResults.

(** X12: when the batch loop ends normally its result holds one entry per
    accepted upload (a non-empty name with an allowed extension), in
    upload order; each entry is what saving and processing that upload
    alone gives, and carries the upload's sanitised name.  Uploads that
    are not accepted leave no trace. *)
Theorem batch_results_in_upload_order (W : World) (current_prices : PriceTable Z)
    (request_temp_dir : string) (files : list string) (data : list Entry.t) :
  detect_colors_loop W current_prices request_temp_dir files [] = Ok data →
  Forall2 (λ file entry,
             handle_upload W current_prices request_temp_dir file = Ok entry)
    (List.filter accepted files) data
  ∧ map Entry.filename data
    = map (secure_filename W) (List.filter accepted files).
Proof.
  intros Hloop. apply detect_colors_loop_results in Hloop.
  split; [done |].
  induction Hloop as [|file entry fs es Hfe _ IH]; [done |].
  simpl. f_equal; [| done].
  unfold handle_upload in Hfe. destruct (file_save W _); [| done].
  simpl in Hfe. apply process_file_logic_run in Hfe as [o Hrun].
  by apply process_file_run_entry in Hrun as (-> & _).
Qed.

Lemma batch_results_in_upload_order_witness :
  ∃ data,
    detect_colors_loop no_converter_world Reference.default_price_table "/tmp/req"
      ["photo.png"; "notes.txt"; ""; "scan.PDF"] [] = Ok data
    ∧ map Entry.filename data = ["photo.png"; "scan.PDF"].
Proof.
  eexists. split; [reflexivity |].
  apply (batch_results_in_upload_order no_converter_world
           Reference.default_price_table "/tmp/req"
           ["photo.png"; "notes.txt"; ""; "scan.PDF"]).
  reflexivity.
Defined.



(** ** Percentages and tiers *)

Lemma round_half_even_le (q : Q) (n : Z) :
  (q < inject_Z n + (1 # 2))%Q → (round_half_even q ≤ n)%Z.
Proof.
  intros Hq. pose proof (round_half_even_near q) as Hr.
  apply Qabs_Qle_condition in Hr as [_ Hr].
  assert (inject_Z (round_half_even q) < inject_Z (n + 1))%Q as Hlt.
  { rewrite inject_Z_plus. change (inject_Z 1) with 1%Q. lra. }
  rewrite <- Zlt_Qlt in Hlt. lia.
Qed.

Lemma round_half_even_gt (q : Q) (n : Z) :
  (inject_Z n + (1 # 2) < q)%Q → (n < round_half_even q)%Z.
Proof.
  intros Hq. pose proof (round_half_even_near q) as Hr.
  apply Qabs_Qle_condition in Hr as [Hr _].
  assert (inject_Z n < inject_Z (round_half_even q))%Q as Hlt by lra.
  by rewrite <- Zlt_Qlt in Hlt.
Qed.

(** The scaled ratio of two counts against a half-integer, in integers. *)
Lemma scaled_ratio_lt (c t n : Z) :
  (0 < t)%Z →
  (20000 * c < (2 * n + 1) * t)%Z →
  (inject_Z c / inject_Z t * 100 * 100 < inject_Z n + (1 # 2))%Q.
Proof.
  intros Ht Hlt.
  assert (0 < inject_Z t)%Q as Htq.
  { change 0%Q with (inject_Z 0). by rewrite <- Zlt_Qlt. }
  rewrite Zlt_Qlt in Hlt. rewrite !inject_Z_mult, inject_Z_plus, inject_Z_mult in Hlt.
  change (inject_Z 20000) with 20000%Q in Hlt.
  change (inject_Z 2) with 2%Q in Hlt. change (inject_Z 1) with 1%Q in Hlt.
  assert (inject_Z c / inject_Z t * inject_Z t == inject_Z c)%Q as Hdiv.
  { rewrite Qmult_comm. apply Qmult_div_r. lra. }
  apply (Qmult_lt_r _ _ (inject_Z t) Htq).
  generalize dependent (inject_Z c / inject_Z t)%Q. intros q Hdiv.
  generalize dependent (inject_Z c). generalize dependent (inject_Z t).
  generalize dependent (inject_Z n). intros. nra.
Qed.

Lemma scaled_ratio_gt (c t n : Z) :
  (0 < t)%Z →
  ((2 * n + 1) * t < 20000 * c)%Z →
  (inject_Z n + (1 # 2) < inject_Z c / inject_Z t * 100 * 100)%Q.
Proof.
  intros Ht Hlt.
  assert (0 < inject_Z t)%Q as Htq.
  { change 0%Q with (inject_Z 0). by rewrite <- Zlt_Qlt. }
  rewrite Zlt_Qlt in Hlt. rewrite !inject_Z_mult, inject_Z_plus, inject_Z_mult in Hlt.
  change (inject_Z 20000) with 20000%Q in Hlt.
  change (inject_Z 2) with 2%Q in Hlt. change (inject_Z 1) with 1%Q in Hlt.
  assert (inject_Z c / inject_Z t * inject_Z t == inject_Z c)%Q as Hdiv.
  { rewrite Qmult_comm. apply Qmult_div_r. lra. }
  apply (Qmult_lt_r _ _ (inject_Z t) Htq).
  generalize dependent (inject_Z c / inject_Z t)%Q. intros q Hdiv.
  generalize dependent (inject_Z c). generalize dependent (inject_Z t).
  generalize dependent (inject_Z n). intros. nra.
Qed.

Lemma resolver_on_hundredths {P} (k : Z) (t : PriceTable P) :
  calculate_price_for_percentage (k # 100) t
  = if (k <=? 0)%Z then ("black_and_white", bnw t)
    else if (k <=? 5000)%Z then ("color", color t)
    else ("full_color", full_color t).
Proof.
  unfold calculate_price_for_percentage, Qle_bool. simpl.
  rewrite Z.mul_1_r. reflexivity.
Qed.

Section Tiers.
Context (W : World).

Lemma analyze_ok_rounded (img hsv : ndarray) :
  cvtColor W img COLOR_BGR2HSV = Ok hsv →
  same_shape_3 img hsv →
  rows img * cols img ≠ 0 →
  analyze_image_array W img
  = Ok (round_half_even
          (inject_Z (Z.of_nat (colored_count hsv))
           / inject_Z (Z.of_nat (rows img * cols img)) * 100 * 100) # 100).
Proof.
  intros Hcvt Hshape Hne. unfold analyze_image_array.
  rewrite (analyze_body_ok W img hsv Hcvt Hshape).
  destruct (Nat.eqb_spec (rows img * cols img) 0); [done |].
  simpl. by rewrite py_round_2.
Qed.

Lemma analyze_valid (img : ndarray) (p : Q) :
  hsv_keeps_shape W →
  analyze_image_array W img = Ok p →
  valid_percentage p.
Proof.
  intros Hshape. unfold analyze_image_array, try_except.
  destruct (cvtColor W img COLOR_BGR2HSV) as [hsv|e] eqn:Hcvt.
  - specialize (Hshape img hsv Hcvt).
    rewrite (analyze_body_ok W img hsv Hcvt Hshape).
    destruct (Nat.eqb_spec (rows img * cols img) 0) as [Hz|Hnz]; intros [= <-].
    + split; [done |]. by exists 0%Z.
    + split.
      * apply py_round_2_range; apply ratio_range; [| done | | done].
        all: destruct Hshape as (Hr & Hc & _); rewrite <- Hr, <- Hc;
          apply colored_count_le.
      * rewrite py_round_2. by eexists.
  - unfold analyze_image_body. rewrite Hcvt. simpl. intros [= <-].
    split; [done |]. by exists 0%Z.
Qed.
End Tiers.

(** X14: the tier of a page in terms of its pixel counts.  With [c]
    colored pixels among [t], the page is black_and_white when c/t is
    below 0.005 %, that is 20000 c < t (the percentage rounds to 0.00);
    it is color when c/t lies between 0.005 % and 50.005 %; and it is
    full_color when c/t exceeds 50.005 % (percentages as exact
    rationals). *)
Theorem tier_by_pixel_counts (W : World) (price_config : PriceTable Z)
    (img hsv : ndarray) :
  cvtColor W img COLOR_BGR2HSV = Ok hsv →
  same_shape_3 img hsv →
  rows img * cols img ≠ 0 →
  ∃ p,
    analyze_image_array W img = Ok p
    ∧ ((20000 * Z.of_nat (colored_count hsv) < Z.of_nat (rows img * cols img))%Z →
         calculate_price_for_percentage p price_config
         = ("black_and_white", bnw price_config))
    ∧ ((Z.of_nat (rows img * cols img) < 20000 * Z.of_nat (colored_count hsv))%Z →
       (20000 * Z.of_nat (colored_count hsv)
        < 10001 * Z.of_nat (rows img * cols img))%Z →
         calculate_price_for_percentage p price_config
         = ("color", color price_config))
    ∧ ((10001 * Z.of_nat (rows img * cols img)
        < 20000 * Z.of_nat (colored_count hsv))%Z →
         calculate_price_for_percentage p price_config
         = ("full_color", full_color price_config)).
Proof.
  intros Hcvt Hshape Hne. eexists. split.
  { by apply analyze_ok_rounded. }
  set (c := Z.of_nat (colored_count hsv)).
  set (t := Z.of_nat (rows img * cols img)).
  assert (0 < t)%Z as Ht by lia.
  set (k := round_half_even (inject_Z c / inject_Z t * 100 * 100)).
  rewrite resolver_on_hundredths.
  split; [| split].
  - intros Hlt.
    assert (k ≤ 0)%Z as Hk.
    { apply round_half_even_le. apply scaled_ratio_lt; [done | lia]. }
    by destruct (Z.leb_spec k 0); [| lia].
  - intros Hlo Hhi.
    assert (0 < k)%Z as Hk0.
    { apply round_half_even_gt. apply scaled_ratio_gt; [done | lia]. }
    assert (k ≤ 5000)%Z as Hk1.
    { apply round_half_even_le. apply scaled_ratio_lt; [done | lia]. }
    destruct (Z.leb_spec k 0); [lia |]. by destruct (Z.leb_spec k 5000); [| lia].
  - intros Hhi.
    assert (5000 < k)%Z as Hk.
    { apply round_half_even_gt. apply scaled_ratio_gt; [done | lia]. }
    destruct (Z.leb_spec k 0); [lia |]. by destruct (Z.leb_spec k 5000); [lia |].
Qed.

Lemma tier_by_pixel_counts_witness :
  ∃ p,
    analyze_image_array (Reference.image_world None) three_pixels = Ok p
    ∧ calculate_price_for_percentage p Reference.default_price_table
      = ("full_color", 1500%Z).
Proof.
  destruct (tier_by_pixel_counts (Reference.image_world None)
              Reference.default_price_table three_pixels
              (Reference.map_pixels Reference.bgr2hsv 3 three_pixels))
    as (p & Hp & _ & _ & Hfull).
  - reflexivity.
  - repeat split; reflexivity.
  - discriminate.
  - exists p. split; [exact Hp |]. apply Hfull. vm_compute. reflexivity.
Defined.

Section Percentages.
Context (W : World) (price_config : PriceTable Z).

Lemma classify_page_percentage page_num page c :
  classify_page W price_config page_num page = Ok c →
  ∃ img, analyze_image_array W img = Ok (PageEntry.percentage c).
Proof.
  unfold classify_page.
  destruct (get_pixmap page (3 # 2) (3 # 2)) as [pix|]; simpl; [| done].
  destruct (pixmap_to_bgr W pix) as [img|]; simpl; [| done].
  destruct (analyze_image_array W img) as [p|] eqn:Hp; simpl; [| done].
  intros [= <-]. eauto.
Qed.

Lemma classify_pages_percentages (pages : list Page) :
  ∀ page_num,
    Forall (λ c, ∃ img, analyze_image_array W img = Ok (PageEntry.percentage c))
      (classify_pages W price_config pages page_num).1.
Proof.
  induction pages as [|page rest IH]; intros page_num; simpl; [constructor |].
  destruct (classify_page W price_config page_num page) as [c|] eqn:Hc;
    [| constructor].
  apply classify_page_percentage in Hc. specialize (IH (S page_num)).
  destruct (classify_pages W price_config rest (S page_num)). by constructor.
Qed.

Lemma process_file_run_percentages (filepath filename : string) entry o :
  process_file_run W filepath filename price_config = Ok (entry, o) →
  Forall (λ c, ∃ img, analyze_image_array W img = Ok (PageEntry.percentage c))
    (Entry.colors entry).
Proof.
  unfold process_file_run. intros Hrun.
  destruct (get_file_type filename) as [file_type|]; [| done].
  destruct (lower <$> rsplit_dot_1 filename) as [ext|]; [| done].
  simpl in Hrun.
  destruct (if bool_decide (ext ∈ ["doc"; "docx"])
            then convert_doc_to_pdf W filepath (path_dirname W filepath)
            else Ok filepath) as [processing_path|e].
  2:{ injection Hrun as <- <-. constructor. }
  destruct (String.eqb file_type "image").
  - rewrite process_image_classify in Hrun.
    destruct (imread W filepath) as [img|].
    2:{ injection Hrun as <- <-. constructor. }
    destruct (analyze_image_array W img) as [p|] eqn:Hp;
      injection Hrun as <- <-; simpl; repeat constructor. eauto.
  - rewrite process_pdf_classify in Hrun.
    destruct (fitz_open W processing_path) as [doc|].
    2:{ injection Hrun as <- <-. constructor. }
    pose proof (classify_pages_percentages (doc_pages doc) 0) as Hall.
    destruct (classify_pages W price_config (doc_pages doc) 0).2;
      injection Hrun as <- <-; done.
Qed.
End Percentages.

(** X15: when the HSV conversion keeps the height and width of what it
    converts, every percentage in every entry returned for a file lies
    between 0 and 100 and is a whole number of hundredths (percentages as
    exact rationals). *)
Theorem entry_percentages_valid (W : World) (price_config : PriceTable Z)
    (filepath filename : string) (entry : Entry.t) :
  hsv_keeps_shape W →
  process_file_logic W filepath filename price_config = Ok entry →
  Forall (λ c, valid_percentage (PageEntry.percentage c)) (Entry.colors entry).
Proof.
  intros Hshape Hlogic. apply process_file_logic_run in Hlogic as [o Hrun].
  apply process_file_run_percentages in Hrun.
  eapply Forall_impl; [exact Hrun |]. intros c [img Himg].
  by apply (analyze_valid W img).
Qed.

Lemma reference_hsv_keeps_shape pricing image document installed conversion present :
  hsv_keeps_shape
    (Reference.world pricing image document installed conversion present).
Proof.
  intros src hsv. simpl. unfold Reference.cvtColor8u.
  destruct (rows src * cols src =? 0); [done |].
  destruct ((chans src =? 3) || (chans src =? 4)); [| done].
  intros [= <-]. done.
Qed.

Lemma entry_percentages_valid_witness :
  Forall (λ c, valid_percentage (PageEntry.percentage c))
    [PageEntry.mk 1 "black_and_white" 500 500 (0 # 100);
     PageEntry.mk 2 "full_color" 1500 500 (10000 # 100)].
Proof.
  apply (entry_percentages_valid
           (Reference.pdf_world
              [Reference.rendered white_page; Reference.rendered saturated_page])
           Reference.default_price_table "/tmp/req/two.pdf" "two.pdf"
           (Entry.mk "two.pdf" "document" 2 2000 1000
              [PageEntry.mk 1 "black_and_white" 500 500 (0 # 100);
               PageEntry.mk 2 "full_color" 1500 500 (10000 # 100)])).
  - apply reference_hsv_keeps_shape.
  - reflexivity.
Defined.

(** ** The pricing table, all or nothing *)

(** X16: the table returned by [fetch_pricing_config] is either the
    default table, untouched, or the table with both bnw and color read
    from an object under data.prices of a 200 response whose success flag
    is truthy; an override of bnw alone, cut short by an exception, never
    happens. *)
Theorem fetch_all_or_nothing (W : World) :
  fetch_pricing_config W = Ok default_prices
  ∨ ∃ r (m d p : gmap string json),
      requests_get W PRICING_API_URL 5 = Ok r
      ∧ status_code r = 200%Z
      ∧ response_json r = Ok (JObj m)
      ∧ truthy (default JNull (m !! "success")) = true
      ∧ m !! "data" = Some (JObj d)
      ∧ d !! "prices" = Some (JObj p)
      ∧ fetch_pricing_config W
        = Ok (mkPrices (default (JInt 500) (p !! "bnw"))
                       (default (JInt 1000) (p !! "color"))
                       (JInt 1500)).
Proof.
  rewrite fetch_config_of_body.
  destruct (fetch_pricing_body W default_prices) as [s res] eqn:Hbody.
  destruct res as [[]|e].
  2:{ left. apply fetch_body_raise_unchanged in Hbody. by subst s. }
  revert Hbody. unfold fetch_pricing_body. exec_unfold.
  destruct (requests_get W PRICING_API_URL 5) as [r|] eqn:Hget; [| done].
  destruct (Z.eqb_spec (status_code r) 200) as [Hs|Hs].
  2:{ intros [= <-]. by left. }
  destruct (response_json r) as [data|] eqn:Hjson; [| done].
  destruct data as [| | | | | |m]; try done. simpl.
  unfold py_and. simpl.
  destruct (truthy (default JNull (m !! "success"))) eqn:Ht; simpl.
  2:{ intros [= <-]. by left. }
  destruct (m !! "data") as [v|] eqn:Hd; simpl.
  2:{ intros [= <-]. by left. }
  destruct v as [| | | | s'|l|d]; simpl; try done.
  - destruct (str_contains "prices" s'); simpl; [done |].
    intros [= <-]. by left.
  - destruct (existsb (is_str "prices") l); simpl; [done |].
    intros [= <-]. by left.
  - destruct (d !! "prices") as [v|] eqn:Hp; simpl.
    2:{ intros [= <-]. by left. }
    destruct v as [| | | | | |p]; simpl; try done.
    intros [= <-]. right. exists r, m, d, p. done.
Qed.
(** ** The converter *)

(** X17: when [convert_doc_to_pdf] returns a path, that path is the
    output directory joined with the input's base name, its extension
    replaced by .pdf, and the file exists; the first LibreOffice command
    found was run with the headless conversion arguments and ended
    normally. *)
Theorem convert_doc_to_pdf_success (W : World) (input_path output_dir pdf_path : string) :
  convert_doc_to_pdf W input_path output_dir = Ok pdf_path →
  pdf_path
  = path_join W output_dir
      (fst (path_splitext W (path_basename W input_path)) +:+ ".pdf")
  ∧ path_exists W pdf_path = true
  ∧ ∃ cmd,
      List.find (which W) (possible_cmds W) = Some cmd
      ∧ which W cmd = true
      ∧ subprocess_run W
          [cmd;
           "-env:UserInstallation=file:///"
             +:+ replace_char (os_sep W) "/" (path_join W output_dir "lo_profile");
           "--headless"; "--convert-to"; "pdf"; "--outdir"; output_dir; input_path]
        = Ok tt.
Proof.
  unfold convert_doc_to_pdf.
  destruct (find (which W) (possible_cmds W)) as [cmd|] eqn:Hfind; [| done].
  destruct (makedirs W _) as [[]|]; simpl; [| done].
  destruct (subprocess_run W _) as [[]|e'] eqn:Hrun.
  2:{ destruct e' as [| | | | | | | |stderr| | | | | |]; try done.
      destruct stderr as [bytes|]; simpl; [| done].
      destruct (String.eqb bytes ""); simpl; [done |].
      by destruct (decode bytes). }
  destruct (path_exists W _) eqn:Hex; [| done].
  intros [= <-]. split; [done |]. split; [done |].
  exists cmd. split; [done |]. split; [| done].
  by apply find_some in Hfind as [_ ?].
Qed.

Lemma convert_doc_to_pdf_success_witness :
  "/tmp/req/report.pdf"
  = path_join converter_world "/tmp/req"
      (fst (path_splitext converter_world
              (path_basename converter_world "/tmp/req/report.docx")) +:+ ".pdf")
  ∧ path_exists converter_world "/tmp/req/report.pdf" = true
  ∧ ∃ cmd,
      List.find (which converter_world) (possible_cmds converter_world) = Some cmd
      ∧ which converter_world cmd = true
      ∧ subprocess_run converter_world
          [cmd;
           "-env:UserInstallation=file:///"
             +:+ replace_char (os_sep converter_world) "/"
                   (path_join converter_world "/tmp/req" "lo_profile");
           "--headless"; "--convert-to"; "pdf"; "--outdir"; "/tmp/req";
           "/tmp/req/report.docx"]
        = Ok tt.
Proof.
  apply (convert_doc_to_pdf_success converter_world "/tmp/req/report.docx"
           "/tmp/req" "/tmp/req/report.pdf").
  reflexivity.
Defined.

(** X18: the exceptions of [convert_doc_to_pdf].  It raises
    [EnvironmentError] when no command is found; what [os.makedirs]
    raised; when LibreOffice exits with a non-zero status, [RuntimeError]
    with the decoded error output (or "Unknown Error" when there is
    none), or [UnicodeDecodeError] when that output is not UTF-8;
    [FileNotFoundError] when the PDF is not there; and otherwise what
    running the command raised.  A [CalledProcessError] of the command
    never leaves the function. *)
Theorem convert_doc_to_pdf_exceptions (W : World) (input_path output_dir : string)
    (e : exn) :
  convert_doc_to_pdf W input_path output_dir = Raise e →
  (List.find (which W) (possible_cmds W) = None
   ∧ e = EnvironmentError "LibreOffice not found in PATH.")
  ∨ makedirs W (path_join W output_dir "lo_profile") = Raise e
  ∨ (∃ cmd args stderr,
       subprocess_run W (cmd :: args) = Raise (CalledProcessError stderr)
       ∧ match stderr with
         | Some bytes =>
             if String.eqb bytes "" then
               e = RuntimeError "LibreOffice conversion failed: Unknown Error"
             else
               (decode bytes = Ok bytes
                ∧ e = RuntimeError ("LibreOffice conversion failed: " +:+ bytes))
               ∨ (decode bytes = Raise UnicodeDecodeError
                  ∧ e = UnicodeDecodeError)
         | None => e = RuntimeError "LibreOffice conversion failed: Unknown Error"
         end)
  ∨ (∃ cmd args,
       subprocess_run W (cmd :: args) = Ok tt
       ∧ e = FileNotFoundError
               ("PDF output not found at "
                +:+ path_join W output_dir
                      (fst (path_splitext W (path_basename W input_path)) +:+ ".pdf")))
  ∨ (∃ cmd args,
       subprocess_run W (cmd :: args) = Raise e
       ∧ ∀ stderr, e ≠ CalledProcessError stderr).
Proof.
  unfold convert_doc_to_pdf.
  destruct (find (which W) (possible_cmds W)) as [cmd|] eqn:Hfind.
  2:{ intros [= <-]. by left. }
  destruct (makedirs W _) as [[]|e'] eqn:Hmk; simpl.
  2:{ intros [= <-]. right; left. done. }
  destruct (subprocess_run W _) as [[]|e'] eqn:Hrun.
  - destruct (path_exists W _); [done |].
    intros [= <-]. do 3 right. left. eauto.
  - destruct e' as [| | | | | | | |stderr| | | | | |];
      try (intros [= <-]; do 4 right; eexists _, _; split; [exact Hrun | done]).
    intros He. do 2 right. left. eexists _, _, stderr. split; [exact Hrun |].
    destruct stderr as [bytes|]; simpl in He; [| by injection He as <-].
    destruct (String.eqb bytes ""); simpl in He; [by injection He as <- |].
    unfold decode in *. destruct (utf8_valid _); simpl in He; injection He as <-.
    + by left.
    + by right.
Qed.

Lemma convert_doc_to_pdf_exceptions_witness :
  ∃ e,
    convert_doc_to_pdf garbled_stderr_world "/tmp/req/report.docx" "/tmp/req"
    = Raise e
    ∧ ((List.find (which garbled_stderr_world) (possible_cmds garbled_stderr_world)
        = None
        ∧ e = EnvironmentError "LibreOffice not found in PATH.")
       ∨ makedirs garbled_stderr_world
           (path_join garbled_stderr_world "/tmp/req" "lo_profile") = Raise e
       ∨ (∃ cmd args stderr,
            subprocess_run garbled_stderr_world (cmd :: args)
            = Raise (CalledProcessError stderr)
            ∧ match stderr with
              | Some bytes =>
                  if String.eqb bytes "" then
                    e = RuntimeError "LibreOffice conversion failed: Unknown Error"
                  else
                    (decode bytes = Ok bytes
                     ∧ e = RuntimeError
                             ("LibreOffice conversion failed: " +:+ bytes))
                    ∨ (decode bytes = Raise UnicodeDecodeError
                       ∧ e = UnicodeDecodeError)
              | None =>
                  e = RuntimeError "LibreOffice conversion failed: Unknown Error"
              end)
       ∨ (∃ cmd args,
            subprocess_run garbled_stderr_world (cmd :: args) = Ok tt
            ∧ e = FileNotFoundError
                    ("PDF output not found at "
                     +:+ path_join garbled_stderr_world "/tmp/req"
                           (fst (path_splitext garbled_stderr_world
                                   (path_basename garbled_stderr_world
                                      "/tmp/req/report.docx")) +:+ ".pdf")))
       ∨ (∃ cmd args,
            subprocess_run garbled_stderr_world (cmd :: args) = Raise e
            ∧ ∀ stderr, e ≠ CalledProcessError stderr)).
Proof.
  exists UnicodeDecodeError. split; [reflexivity |].
  apply (convert_doc_to_pdf_exceptions garbled_stderr_world
           "/tmp/req/report.docx" "/tmp/req").
  reflexivity.
Defined.

(** ** More color never costs less *)

Lemma round_half_even_proper (q1 q2 : Q) :
  (q1 == q2)%Q → round_half_even q1 = round_half_even q2.
Proof.
  intros Heq. unfold round_half_even.
  rewrite (Qfloor_comp _ _ Heq).
  assert (q1 - inject_Z (Qfloor q2) == q2 - inject_Z (Qfloor q2))%Q as Hsub
    by by rewrite Heq.
  by rewrite (Qcompare_comp _ _ Hsub _ _ (Qeq_refl (1 # 2))).
Qed.

Lemma round_half_even_mono (q1 q2 : Q) :
  (q1 <= q2)%Q → (round_half_even q1 ≤ round_half_even q2)%Z.
Proof.
  intros Hle. destruct (Qlt_le_dec q1 q2) as [Hlt|Hge].
  - pose proof (round_half_even_near q1) as H1.
    pose proof (round_half_even_near q2) as H2.
    apply Qabs_Qle_condition in H1 as [_ H1].
    apply Qabs_Qle_condition in H2 as [H2 _].
    assert (inject_Z (round_half_even q1) < inject_Z (round_half_even q2 + 1))%Q
      as Hk.
    { rewrite inject_Z_plus. change (inject_Z 1) with 1%Q. lra. }
    rewrite <- Zlt_Qlt in Hk. lia.
  - rewrite (round_half_even_proper q1 q2); [lia |]. by apply Qle_antisym.
Qed.

Lemma resolver_price_mono (t : PriceTable Z) (k1 k2 : Z) :
  monotone_prices t → (k1 ≤ k2)%Z →
  ((calculate_price_for_percentage (k1 # 100) t).2
   ≤ (calculate_price_for_percentage (k2 # 100) t).2)%Z.
Proof.
  intros (H0 & H1 & H2) Hk. rewrite !resolver_on_hundredths.
  destruct (Z.leb_spec k1 0), (Z.leb_spec k2 0),
    (Z.leb_spec k1 5000), (Z.leb_spec k2 5000); simpl; lia.
Qed.

(** X19: with a price table in which 0 <= bnw <= color <= full_color,
    the resolver is monotone: a larger percentage never resolves to a
    lower price. *)
Theorem calculate_price_monotone (t : PriceTable Z) (p q : Q) :
  monotone_prices t →
  (p <= q)%Q →
  ((calculate_price_for_percentage p t).2
   ≤ (calculate_price_for_percentage q t).2)%Z.
Proof.
  intros (H0 & H1 & H2) Hpq. unfold calculate_price_for_percentage.
  destruct (Qle_bool p 0) eqn:Hp0, (Qle_bool q 0) eqn:Hq0,
    (Qle_bool p 50) eqn:Hp50, (Qle_bool q 50) eqn:Hq50; simpl; try lia; exfalso.
  all: repeat match goal with
       | H : Qle_bool _ _ = true |- _ => apply Qle_bool_iff in H
       | H : Qle_bool ?a ?b = false |- _ =>
           assert (¬ (a <= b)%Q)
             by (intros Hc; apply Qle_bool_iff in Hc; congruence);
           clear H
       end.
  all: lra.
Qed.

Lemma calculate_price_monotone_witness :
  ((calculate_price_for_percentage (1 # 4) Reference.default_price_table).2
   ≤ (calculate_price_for_percentage (5001 # 100) Reference.default_price_table).2)%Z.
Proof.
  apply (calculate_price_monotone Reference.default_price_table (1 # 4) (5001 # 100)).
  - unfold monotone_prices. simpl. lia.
  - unfold Qle. simpl. lia.
Defined.

(** X20: of two pages with the same number of pixels, the one with more
    colored pixels is never the cheaper one (price table with
    0 <= bnw <= color <= full_color; percentages as exact rationals). *)
Theorem more_color_never_cheaper (W : World) (price_config : PriceTable Z)
    (img1 hsv1 img2 hsv2 : ndarray) :
  monotone_prices price_config →
  cvtColor W img1 COLOR_BGR2HSV = Ok hsv1 → same_shape_3 img1 hsv1 →
  cvtColor W img2 COLOR_BGR2HSV = Ok hsv2 → same_shape_3 img2 hsv2 →
  rows img1 * cols img1 = rows img2 * cols img2 →
  rows img1 * cols img1 ≠ 0 →
  colored_count hsv1 ≤ colored_count hsv2 →
  ∃ p1 p2,
    analyze_image_array W img1 = Ok p1
    ∧ analyze_image_array W img2 = Ok p2
    ∧ (p1 <= p2)%Q
    ∧ ((calculate_price_for_percentage p1 price_config).2
       ≤ (calculate_price_for_percentage p2 price_config).2)%Z.
Proof.
  intros Hmono Hcvt1 Hs1 Hcvt2 Hs2 Hsize Hne Hle.
  eexists _, _. split; [by apply analyze_ok_rounded |].
  split; [apply analyze_ok_rounded; [done | done | by rewrite <- Hsize] |].
  rewrite <- Hsize.
  set (t := inject_Z (Z.of_nat (rows img1 * cols img1))).
  assert (0 < t)%Q as Ht.
  { unfold t. change 0%Q with (inject_Z 0). rewrite <- Zlt_Qlt. lia. }
  assert (round_half_even (inject_Z (Z.of_nat (colored_count hsv1)) / t * 100 * 100)
          ≤ round_half_even (inject_Z (Z.of_nat (colored_count hsv2)) / t * 100 * 100))%Z
    as Hk.
  { apply round_half_even_mono.
    assert (inject_Z (Z.of_nat (colored_count hsv1))
            <= inject_Z (Z.of_nat (colored_count hsv2)))%Q as Hc.
    { rewrite <- Zle_Qle. lia. }
    assert (inject_Z (Z.of_nat (colored_count hsv1)) / t
            <= inject_Z (Z.of_nat (colored_count hsv2)) / t)%Q as Hdiv.
    { unfold Qdiv. apply Qmult_le_compat_r; [done |].
      apply Qlt_le_weak. by apply Qinv_lt_0_compat. }
    lra. }
  split.
  - unfold Qle. simpl. lia.
  - by apply resolver_price_mono.
Qed.

Lemma more_color_never_cheaper_witness :
  ∃ p1 p2,
    analyze_image_array (Reference.image_world None)
      (mkArray 1 3 3 [255; 255; 255; 10; 10; 10; 0; 0; 250]%Z) = Ok p1
    ∧ analyze_image_array (Reference.image_world None) three_pixels = Ok p2
    ∧ (p1 <= p2)%Q
    ∧ ((calculate_price_for_percentage p1 Reference.default_price_table).2
       ≤ (calculate_price_for_percentage p2 Reference.default_price_table).2)%Z.
Proof.
  apply (more_color_never_cheaper (Reference.image_world None)
           Reference.default_price_table
           (mkArray 1 3 3 [255; 255; 255; 10; 10; 10; 0; 0; 250]%Z)
           (Reference.map_pixels Reference.bgr2hsv 3
              (mkArray 1 3 3 [255; 255; 255; 10; 10; 10; 0; 0; 250]%Z))
           three_pixels
           (Reference.map_pixels Reference.bgr2hsv 3 three_pixels)).
  - unfold monotone_prices. simpl. lia.
  - reflexivity.
  - repeat split; reflexivity.
  - reflexivity.
  - repeat split; reflexivity.
  - reflexivity.
  - discriminate.
  - vm_compute. lia.
Defined.
